(** * Verification of nodeBrain's roadmap and source-generation code

    Shallow embedding of
    - [src/src/lib/Source_gen.py]: [clean_topic_title],
      [extract_keywords_from_description], [search_wikipedia_article],
      [generate_sources_for_topic];
    - [src/backend/services/topicCreate.py]: [generate_learning_roadmap];
    - [src/backend/routes/roadmap.py]: [generate_roadmap_endpoint].

    Python strings are modelled as ASCII [string]s; [str.lower],
    [str.strip], [str.split] and the regular expressions of the code are
    written out over them.  The Wikipedia service and the Gemini model are
    external collaborators and are taken as parameters. *)

From Stdlib Require Import String Ascii Bool PrimFloat.
From stdpp Require Import base gmap sets list strings.

Open Scope string_scope.
Open Scope nat_scope.
Set Warnings "-register-all".

(** ** Python string primitives *)
Module Py.

(** [str.isspace] on ASCII: \t \n \v \f \r, the separators 0x1c-0x1f and
    the space. *)
Definition is_space (c : ascii) : bool :=
  let n := nat_of_ascii c in
  ((9 <=? n) && (n <=? 13)) || ((28 <=? n) && (n <=? 32)).

Definition lower_char (c : ascii) : ascii :=
  let n := nat_of_ascii c in
  if (65 <=? n) && (n <=? 90) then ascii_of_nat (n + 32) else c.

(** [str.lower] *)
Fixpoint lower (s : string) : string :=
  match s with
  | EmptyString => EmptyString
  | String c t => String (lower_char c) (lower t)
  end.

Fixpoint drop (n : nat) (s : string) : string :=
  match n, s with
  | O, _ => s
  | S k, EmptyString => EmptyString
  | S k, String _ t => drop k t
  end.

Fixpoint rev_str (s : string) : string :=
  match s with
  | EmptyString => EmptyString
  | String c t => String.append (rev_str t) (String c EmptyString)
  end.

(** [str.lstrip()], [str.rstrip()], [str.strip()] *)
Fixpoint lstrip (s : string) : string :=
  match s with
  | EmptyString => EmptyString
  | String c t => if is_space c then lstrip t else s
  end.

Definition rstrip (s : string) : string := rev_str (lstrip (rev_str s)).

Definition strip (s : string) : string := rstrip (lstrip s).

(** [s.startswith(p)] and [s.endswith(p)] *)
Definition startswith (s p : string) : bool := String.prefix p s.

Definition endswith (s p : string) : bool :=
  String.prefix (rev_str p) (rev_str s).

(** [needle in hay] *)
Fixpoint contains (needle hay : string) : bool :=
  String.prefix needle hay ||
  match hay with
  | EmptyString => false
  | String _ t => contains needle t
  end.

(** [s.replace(old, new)] (all occurrences, scanned left to right) and
    [s.replace(old, new, 1)]; [old] is never empty in the code. *)
Fixpoint replace_go (fuel : nat) (old new s : string) (all : bool) : string :=
  match fuel with
  | O => s
  | S f =>
      if String.prefix old s then
        String.append new
          (if all then replace_go f old new (drop (String.length old) s) all
           else drop (String.length old) s)
      else match s with
           | EmptyString => EmptyString
           | String c t => String c (replace_go f old new t all)
           end
  end.

Definition replace (s old new : string) : string :=
  if String.eqb old "" then s
  else replace_go (S (String.length s)) old new s true.

Definition replace1 (s old new : string) : string :=
  if String.eqb old "" then s
  else replace_go (S (String.length s)) old new s false.

(** [len(s.split())]: number of maximal runs of non-space characters. *)
Fixpoint word_count_go (in_word : bool) (s : string) : nat :=
  match s with
  | EmptyString => 0
  | String c t =>
      if is_space c then word_count_go false t
      else (if in_word then 0 else 1) + word_count_go true t
  end.

Definition word_count (s : string) : nat := word_count_go false s.

(** [s.split(':', 1)[1]] when [':' in s]: the text after the first colon. *)
Fixpoint after_first_colon (s : string) : string :=
  match s with
  | EmptyString => EmptyString
  | String c t => if Ascii.eqb c ":" then t else after_first_colon t
  end.

(** [all(P(c) for c in s)] *)
Fixpoint str_forall (P : ascii -> bool) (s : string) : bool :=
  match s with
  | EmptyString => true
  | String c t => P c && str_forall P t
  end.

End Py.

Import Py.

(** ** TextNormalizer: [clean_topic_title] (Source_gen.py, 12-43) *)

Definition prefixes : list string :=
  ["Introduction to "; "The "; "An "; "A "; "Fundamentals of ";
   "Basics of "; "Advanced "; "Concepts of "].

(** [re.sub(f"^{prefix}", "", cleaned, flags=re.IGNORECASE)]: the
    prefixes hold no regex metacharacter and [^] only matches at position
    0, so at most one leading occurrence is removed. *)
Definition sub_prefix_ci (prefix cleaned : string) : string :=
  if String.prefix (lower prefix) (lower cleaned)
  then drop (String.length prefix) cleaned
  else cleaned.

Definition remove_prefixes (title : string) : string :=
  fold_left (fun cleaned prefix => sub_prefix_ci prefix cleaned) prefixes title.

(** The successive values of [cleaned] in the loop of lines 32-33: the
    title, then the text left after each prefix in turn. *)
Fixpoint prefix_steps (ps : list string) (cleaned : string) : list string :=
  cleaned :: match ps with
             | [] => []
             | p :: ps' => prefix_steps ps' (sub_prefix_ci p cleaned)
             end.

Definition singularize (cleaned : string) : string :=
  if endswith (lower cleaned) "s" && (2 <? String.length cleaned)
     && negb (endswith (lower cleaned) "ss") then
    if negb (existsb (endswith (lower cleaned)) ["ics"; "esis"; "us"])
    then String.substring 0 (String.length cleaned - 1) cleaned
    else cleaned
  else cleaned.

Definition clean_topic_title (title : string) : string :=
  singularize (strip (remove_prefixes title)).

(** ** KeywordExtractor: [extract_keywords_from_description]
    (Source_gen.py, 45-82) *)

Fixpoint count_leading_space (s : string) : nat :=
  match s with
  | EmptyString => 0
  | String c t => if is_space c then S (count_leading_space t) else 0
  end.

(** Length of a match of [[;,]\s*|\s+and\s+] anchored at the start of [s].
    [\s*] and [\s+] are greedy; backtracking into [\s+] cannot help since
    the next character of the pattern is not a space. *)
Definition match_delim (s : string) : option nat :=
  match s with
  | EmptyString => None
  | String c t =>
      if Ascii.eqb c ";" || Ascii.eqb c "," then Some (1 + count_leading_space t)
      else
        let k := count_leading_space s in
        if k =? 0 then None
        else let r := drop k s in
             if String.prefix "and" r then
               let m := count_leading_space (drop 3 r) in
               if m =? 0 then None else Some (k + 3 + m)
             else None
  end.

(** [re.split(r'[;,]\s*|\s+and\s+', s)]: the pieces between the leftmost
    non-overlapping matches. *)
Fixpoint split_go (fuel : nat) (acc s : string) : list string :=
  match fuel with
  | O => [String.append acc s]
  | S f =>
      match s with
      | EmptyString => [acc]
      | String c t =>
          match match_delim s with
          | Some n => acc :: split_go f EmptyString (drop n s)
          | None => split_go f (String.append acc (String c EmptyString)) t
          end
      end
  end.

Definition split_delims (s : string) : list string :=
  split_go (S (String.length s)) EmptyString s.

(** [re.sub(r'[\).\s]+$', '', part)] on a stripped part: the maximal
    trailing run of [)], [.] and spaces is removed. *)
Fixpoint lstrip_closing (s : string) : string :=
  match s with
  | EmptyString => EmptyString
  | String c t =>
      if Ascii.eqb c ")" || Ascii.eqb c "." || is_space c
      then lstrip_closing t else s
  end.

Definition sub_trailing_closing (part : string) : string :=
  rev_str (lstrip_closing (rev_str part)).

(** [re.sub(r'^\s*\(', '', part)] *)
Definition sub_leading_paren (part : string) : string :=
  match lstrip part with
  | String c t => if Ascii.eqb c "(" then t else part
  | EmptyString => part
  end.

Definition first_pass_part (part : string) : option string :=
  let part := strip part in
  if String.eqb part "" then None
  else
    let part := sub_leading_paren (sub_trailing_closing part) in
    if negb (String.eqb part "") && (3 <? String.length part)
    then Some part else None.

Definition colon_pass (keywords : list string) (mp : string) : list string :=
  let mp := strip mp in
  if negb (String.eqb mp "") && (3 <? String.length mp)
     && negb (existsb (String.eqb mp) keywords)
  then app keywords [mp] else keywords.

Definition unwanted_keywords : list string :=
  ["etc"; "and so on"; "such as"; "e.g."; "i.e."; "or"; "introduction";
   "basics"; "advanced"].

Definition keep_keyword (kw : string) : bool :=
  negb (existsb (String.eqb (lower kw)) unwanted_keywords)
  && (word_count kw <=? 5).

(** The list [keywords] before the final [list(set(keywords))]. *)
Definition keyword_list (description : string) : list string :=
  let keywords := omap first_pass_part (split_delims description) in
  let keywords :=
    if contains ":" description
    then fold_left colon_pass
           (split_delims (strip (after_first_colon description))) keywords
    else keywords in
  List.filter keep_keyword keywords.

(** The returned value, as a set. *)
Definition extract_keywords_from_description (description : string)
  : gset string :=
  list_to_set (keyword_list description).

(** ** Exceptions and outcomes of Python calls *)

Inductive exn :=
| KeyError (key : string)
| RequestException (msg : string)
| JSONDecodeError (msg : string)
| CollaboratorError (msg : string)
| HTTPException (status_code : nat) (detail : string).

Inductive outcome (A : Type) :=
| Ok (a : A)
| Raise (e : exn).
Arguments Ok {A} a.
Arguments Raise {A} e.

(** ** SearchClient: [search_wikipedia_article] (Source_gen.py, 85-156) *)

Record article := mk_article { a_title : string; a_url : string }.

(** One opensearch request.  [None]: [requests.get]/[raise_for_status]
    raised a [RequestException].  [Some rs]: the response
    [[term, titles, descriptions, urls]] as the list of its positionally
    aligned (title, url) pairs, ranked; [Some []] also covers a response
    with fewer than four fields. *)
Definition response := option (list (string * string)).

(** The search service: the answer to the [n]-th request of the run, for
    the given search term.  Any behaviour, stateful or not, is one such
    function. *)
Definition service := nat -> string -> response.

(** [search_queries_to_try] (lines 92-103). *)
Definition search_queries (query_term : string) : list string :=
  let qs := [query_term] in
  let cleaned_query_term := clean_topic_title query_term in
  let qs :=
    if negb (String.eqb cleaned_query_term "")
       && negb (String.eqb (lower cleaned_query_term) (lower query_term))
       && negb (existsb (String.eqb cleaned_query_term) qs)
    then app qs [cleaned_query_term] else qs in
  if endswith (lower query_term) " theory" then
    let core_concept := replace1 (replace1 query_term " Theory" "") " theory" "" in
    if negb (String.eqb core_concept "")
       && negb (String.eqb (lower core_concept) (lower query_term))
       && negb (existsb (String.eqb core_concept) qs)
    then app qs [core_concept] else qs
  else qs.

(** The relevance loop over the ranked results of one term (lines
    123-143): a strong match is returned, the top result is appended to
    [found_articles]. *)
Fixpoint scan_results (term : string) (i : nat) (rs : list (string * string))
    (found_articles : list article) : option article * list article :=
  match rs with
  | [] => (None, found_articles)
  | (title, url) :: rs' =>
      let lower_query_term := lower term in
      let lower_found_title := lower title in
      if String.eqb lower_query_term lower_found_title then
        (Some (mk_article title url), found_articles)
      else if contains lower_query_term lower_found_title
              || contains lower_found_title lower_query_term then
        (Some (mk_article title url), found_articles)
      else
        let found_articles :=
          if i =? 0 then app found_articles [mk_article title url]
          else found_articles in
        scan_results term (S i) rs' found_articles
  end.

(** The loop over the terms (lines 107-156); [log] lists the search terms
    of every request issued so far, so the next request is number
    [length log]. *)
Fixpoint search_loop (svc : service) (terms : list string)
    (found_articles : list article) (log : list string)
    : option article * list string :=
  match terms with
  | [] => (head found_articles, log)
  | current_search_term :: rest =>
      let log' := app log [current_search_term] in
      match svc (length log) current_search_term with
      | None => search_loop svc rest found_articles log'
      | Some rs =>
          match scan_results current_search_term 0 rs found_articles with
          | (Some a, _) => (Some a, log')
          | (None, found') => search_loop svc rest found' log'
          end
      end
  end.

Definition search_wikipedia_article (svc : service) (log : list string)
    (query_term : string) : option article * list string :=
  search_loop svc (search_queries query_term) [] log.

(** ** EvidenceLinker: [generate_sources_for_topic] (Source_gen.py, 158-208) *)

(** A source dict; [relevance_score] is kept in tenths (0.9 and 0.8 in
    the code). *)
Record source := mk_source {
  s_url : string;
  s_type : string;
  s_title : string;
  s_relevance_tenths : nat;
  s_context_for_topic : string }.

Definition record_match (context : string) (relevance : nat)
    (st : list source * gset string) (info : option article)
    : list source * gset string :=
  let '(sources, seen_urls) := st in
  match info with
  | Some a =>
      if bool_decide (a_url a ∈ seen_urls) then st
      else (app sources [mk_source (a_url a) "Wikipedia Article" (a_title a)
                          relevance context],
            {[a_url a]} ∪ seen_urls)
  | None => st
  end.

(** The loop over the sub-topics (lines 191-204). *)
Fixpoint sub_topic_loop (svc : service) (sub_topics : list string)
    (st : list source * gset string) (log : list string)
    : list source * gset string * list string :=
  match sub_topics with
  | [] => (st, log)
  | sub_topic :: rest =>
      let '(sub_wiki_info, log') := search_wikipedia_article svc log sub_topic in
      sub_topic_loop svc rest (record_match sub_topic 8 st sub_wiki_info) log'
  end.

(** [topic_data] is a dict from strings to strings.  [set_order] is the
    iteration order of [list(set(keywords))], which Python leaves
    unspecified.  The result comes with the log of the searches issued,
    also when the call raises. *)
Definition generate_sources_for_topic (svc : service)
    (set_order : gset string -> list string) (log : list string)
    (topic_data : gmap string string) : outcome (list source) * list string :=
  match topic_data !! "title" with
  | None => (Raise (KeyError "title"), log)
  | Some topic_title =>
      match topic_data !! "description" with
      | None => (Raise (KeyError "description"), log)
      | Some topic_description =>
          let '(wiki_info, log1) := search_wikipedia_article svc log topic_title in
          let st := record_match topic_title 9 ([], ∅) wiki_info in
          if String.eqb topic_description "" then (Ok st.1, log1)
          else
            let sub_topics :=
              set_order (extract_keywords_from_description topic_description) in
            let '(st', log2) := sub_topic_loop svc sub_topics st log1 in
            (Ok st'.1, log2)
      end
  end.

(** ** GoalDecomposer: [generate_learning_roadmap] (topicCreate.py, 16-89) *)

Inductive json :=
| JNull
| JBool (b : bool)
| JNum (n : Z)
| JStr (s : string)
| JArr (items : list json)
| JObj (fields : list (string * json)).

Definition nl : string := String "010"%char EmptyString.

(** The f-string prompt of lines 21-67; its fixed instructional text is
    abbreviated, the goal is embedded at the two places the code has it. *)
Definition roadmap_prompt (learning_goal : string) : string :=
  String.append "You are an expert educational curriculum designer. ... Learning Goal: "
    (String.append learning_goal
       (String.append " ... Now, generate the roadmap for the learning goal: "
          learning_goal)).

(** Lines 75-79. *)
Definition strip_fences (raw_json_string : string) : string :=
  if startswith raw_json_string "```json" then
    replace (replace raw_json_string (String.append "```json" nl) "")
      (String.append nl "```") ""
  else if startswith raw_json_string "```" then
    replace (replace raw_json_string (String.append "```" nl) "")
      (String.append nl "```") ""
  else raw_json_string.

Section GoalDecomposer.

(** [model.generate_content(prompt).text]: the response text, or the
    exception raised by the collaborator or the network. *)
Variable generate_content : string -> outcome string.
(** [json.loads] *)
Variable json_loads : string -> outcome json.

(** The body of the [try] block (lines 70-83). *)
Definition roadmap_try (learning_goal : string) : outcome json :=
  match generate_content (roadmap_prompt learning_goal) with
  | Raise e => Raise e
  | Ok text => json_loads (strip_fences (strip text))
  end.

(** [except Exception]: every exception of the block returns [[]]. *)
Definition generate_learning_roadmap (learning_goal : string) : outcome json :=
  match roadmap_try learning_goal with
  | Ok topics => Ok topics
  | Raise _ => Ok (JArr [])
  end.

End GoalDecomposer.

(** ** HTTP endpoint: [generate_roadmap_endpoint] (roadmap.py, 6-16) *)

(** The Python values of a JSON request body: [None], [bool], [int],
    [float], [str], [list] and [dict] (a dict as its list of entries). *)
Inductive pyval :=
| PNone
| PBool (b : bool)
| PInt (z : Z)
| PFloat (f : float)
| PStr (s : string)
| PList (l : list pyval)
| PDict (d : list (string * pyval)).

(** Python truthiness. *)
Definition truthy (v : pyval) : bool :=
  match v with
  | PNone => false
  | PBool b => b
  | PInt z => negb (Z.eqb z 0)
  | PFloat f => negb (PrimFloat.eqb f 0%float)
  | PStr s => negb (String.eqb s "")
  | PList l => negb (Nat.eqb (length l) 0)
  | PDict d => negb (Nat.eqb (length d) 0)
  end.

(** [d.get(k, default)] *)
Definition dict_get (d : gmap string pyval) (k : string) (default : pyval) : pyval :=
  match d !! k with Some v => v | None => default end.

Section Endpoint.

(** [ingest_roadmap_into_neo4j(learning_goal, user_id)]: the pipeline. *)
Variable ingest_roadmap_into_neo4j : pyval -> pyval -> outcome pyval.

(** The result carries the list of pipeline invocations made. *)
Definition generate_roadmap_endpoint (data : gmap string pyval)
    : outcome pyval * list (pyval * pyval) :=
  let learning_goal := dict_get data "goal" PNone in
  let user_id := dict_get data "user_id" (PStr "user123") in
  if negb (truthy learning_goal) then
    (Raise (HTTPException 400 "Missing learning goal."), [])
  else
    (ingest_roadmap_into_neo4j learning_goal user_id, [(learning_goal, user_id)]).

End Endpoint.

(** ** GraphValidator *)

Inductive difficulty := beginner | intermediate | advanced.

Record topic := mk_topic {
  t_id : string;
  t_title : string;
  t_description : string;
  t_difficulty : difficulty;
  t_prerequisites : list string }.

Inductive violation :=
| DuplicateId (position : nat) (id : string)
| UnresolvedPrerequisite (position : nat) (prerequisite : string).

Fixpoint validate_go (position : nat) (earlier_ids : list string)
    (topics : list topic) : list violation :=
  match topics with
  | [] => []
  | t :: rest =>
      let dup := if existsb (String.eqb (t_id t)) earlier_ids
                 then [DuplicateId position (t_id t)] else [] in
      let unresolved :=
        map (UnresolvedPrerequisite position)
          (List.filter (fun p => negb (existsb (String.eqb p) earlier_ids))
             (t_prerequisites t)) in
      app (app dup unresolved)
        (validate_go (S position) (app earlier_ids [t_id t]) rest)
  end.

(** Modelled from the spec: the GraphValidator of §4.2 and §8, absent
    from the source files (its caller [ingest_roadmap_into_neo4j] in
    [services/neo4j_ingest.py] is not among them).  Advisory: it reports
    each topic whose id repeats an earlier id and each prerequisite id
    that is not the id of a strictly earlier topic, and changes nothing. *)
Definition validate_topics (topics : list topic) : list violation :=
  validate_go 0 [] topics.

Definition violation_position (v : violation) : nat :=
  match v with
  | DuplicateId position _ => position
  | UnresolvedPrerequisite position _ => position
  end.

(** ** The claims' reading of the search outcome *)

(** The relevance test of lines 132 and 137. *)
Definition strong_match (term title : string) : bool :=
  String.eqb (lower term) (lower title)
  || contains (lower term) (lower title)
  || contains (lower title) (lower term).

(** The top-ranked result of the earliest term whose request returned
    results, the [k]-th term being request number [n + k]. *)
Fixpoint earliest_top_result (svc : service) (terms : list string) (n : nat)
    : option article :=
  match terms with
  | [] => None
  | t :: ts =>
      match svc n t with
      | Some ((title, url) :: _) => Some (mk_article title url)
      | _ => earliest_top_result svc ts (S n)
      end
  end.

(** [(title, url)] was in the service's answer to a request of [log]
    numbered [first] or later. *)
Definition returned_by (svc : service) (first : nat) (log : list string)
    (title url : string) : Prop :=
  exists n term rs,
    first <= n /\ nth_error log n = Some term /\ svc n term = Some rs /\
    In (title, url) rs.

(** ** Concrete inputs *)

(** The description of the example of §8 of the spec. *)
Definition vector_description : string :=
  "Covers vector spaces, matrices, and inner products.".

(** A service answering every request, with titles unrelated to the
    variants of "Graph Theory". *)
Definition svc_unrelated : service :=
  fun _ term =>
    if String.eqb term "Graph Theory" then Some [("Tree", "u/Tree")]
    else Some [("Node", "u/Node"); ("Edge", "u/Edge")].

(** A service whose top result is always "HTML". *)
Definition svc_html : service :=
  fun _ _ => Some [("HTML", "u/HTML"); ("HTML5", "u/HTML5")].

(** A service whose top result is an article named after the query. *)
Definition svc_echo : service :=
  fun _ term => Some [(term, String.append "u/" term)].

(** A topic dict with both keys. *)
Definition graph_topic : gmap string string :=
  <["title" := "Graph Theory"]> (<["description" := vector_description]> ∅).

(** A collaborator that fails, and a parser that accepts anything. *)
Definition failing_model : string -> outcome string :=
  fun _ => Raise (CollaboratorError "quota exceeded").

Definition lenient_loads : string -> outcome json := fun _ => Ok JNull.

(** An ingestion pipeline that echoes the goal. *)
Definition echo_ingest : pyval -> pyval -> outcome pyval := fun goal _ => Ok goal.

(** A character other than the backtick. *)
Definition not_tick (c : ascii) : bool := negb (Ascii.eqb c "`"%char).

(** A response body wrapped in a fence tagged [json], or in a bare fence. *)
Definition fence_json (body : string) : string :=
  String.append (String.append "```json" nl) (String.append body (String.append nl "```")).

Definition fence_plain (body : string) : string :=
  String.append (String.append "```" nl) (String.append body (String.append nl "```")).

(** A collaborator that answers with a fenced empty array and a trailing
    newline, and a parser that accepts exactly that array. *)
Definition fenced_model : string -> outcome string :=
  fun _ => Ok (String.append (fence_json "[]") nl).

Definition array_loads (s : string) : outcome json :=
  if String.eqb s "[]" then Ok (JArr []) else Raise (JSONDecodeError "Expecting value").

(** The collaborator answer of the end-to-end scenario of §8. *)
Definition web_topics : list topic :=
  [mk_topic "html_basics" "HTML Basics" "" beginner [];
   mk_topic "css_fundamentals" "CSS Fundamentals" "" beginner ["html_basics"];
   mk_topic "js_intro" "Introduction to JavaScript" "" intermediate
     ["html_basics"; "css_fundamentals"]].

(** * Properties *)

(** ** String lemmas *)

Lemma append_cons (x : ascii) (a b : string) :
  String.append (String x a) b = String x (String.append a b).
Proof. reflexivity. Qed.

Lemma append_assoc_str (a b c : string) :
  String.append a (String.append b c) = String.append (String.append a b) c.
Proof.
  induction a as [|x a IH]; [reflexivity|].
  rewrite !append_cons, IH; reflexivity.
Qed.

Lemma lower_append (a b : string) :
  lower (String.append a b) = String.append (lower a) (lower b).
Proof.
  induction a as [|x a IH]; [reflexivity|].
  rewrite append_cons; simpl; rewrite IH, append_cons; reflexivity.
Qed.

(** A case-insensitive prefix match splits the string at the prefix
    length. *)
Lemma prefix_lower_split (p t : string) :
  String.prefix (lower p) (lower t) = true ->
  exists r, t = String.append r (drop (String.length p) t) /\ lower r = lower p.
Proof.
  revert t; induction p as [|c p IH]; intros t H.
  - exists EmptyString; split; reflexivity.
  - destruct t as [|d t]; simpl in H; [discriminate|].
    destruct (ascii_dec (lower_char c) (lower_char d)) as [E|]; [|discriminate].
    destruct (IH t H) as [r [Ht Hr]].
    exists (String d r); simpl; split.
    + rewrite append_cons, <- Ht; reflexivity.
    + now rewrite E, Hr.
Qed.

(** Sequential removal over any prefix list: what is removed is,
    case-insensitively, the concatenation of a sublist of the prefixes. *)
Lemma fold_sub_prefix_sublist (l : list string) (t : string) :
  exists ps removed,
    ps `sublist_of` l /\
    lower removed = lower (fold_right String.append EmptyString ps) /\
    t = String.append removed
          (fold_left (fun cleaned prefix => sub_prefix_ci prefix cleaned) l t).
Proof.
  revert t; induction l as [|a l IH]; intros t; simpl.
  - exists [], EmptyString; repeat split; constructor.
  - destruct (IH (sub_prefix_ci a t)) as (ps & removed & Hsub & Hlow & Ht).
    unfold sub_prefix_ci in *.
    destruct (String.prefix (lower a) (lower t)) eqn:Hp.
    + destruct (prefix_lower_split a t Hp) as [r [Hr Hlr]].
      exists (a :: ps), (String.append r removed); repeat split.
      * now constructor.
      * simpl; rewrite !lower_append, Hlr, Hlow; reflexivity.
      * rewrite Hr at 1; rewrite Ht at 1; apply append_assoc_str.
    + exists ps, removed; repeat split; [now constructor | exact Hlow | exact Ht].
Qed.

(** The keyword list of the example description, before the final
    [set]. *)
Lemma keyword_list_vector_description :
  keyword_list vector_description =
    ["Covers vector spaces"; "matrices"; "and inner products"].
Proof. vm_compute; reflexivity. Qed.

(** ** TextNormalizer *)

(** C2 (counterexample): [clean_topic_title "The Advanced Calculus"]
    strips both "The " and "Advanced ": the result is "Calculus", not
    "Advanced Calculus". *)
Lemma clean_topic_title_strips_two_prefixes :
  clean_topic_title "The Advanced Calculus" = "Calculus" /\
  clean_topic_title "The Advanced Calculus" <> "Advanced Calculus".
Proof.
  split; [vm_compute; reflexivity | intros H; vm_compute in H; discriminate].
Qed.

Lemma prefix_steps_length (ps : list string) (t : string) :
  length (prefix_steps ps t) = S (length ps).
Proof.
  revert t; induction ps as [|p ps IH]; intros t; simpl; [reflexivity|].
  rewrite IH; reflexivity.
Qed.

Lemma prefix_steps_step (ps : list string) (t : string) (i : nat) (p c c' : string) :
  ps !! i = Some p -> prefix_steps ps t !! i = Some c ->
  prefix_steps ps t !! S i = Some c' -> c' = sub_prefix_ci p c.
Proof.
  revert t i; induction ps as [|q ps IH]; intros t i Hp Hc Hc'; [discriminate|].
  destruct i as [|i].
  - simpl in Hp, Hc, Hc'; injection Hp as <-; injection Hc as <-.
    destruct ps; simpl in Hc'; injection Hc' as <-; reflexivity.
  - exact (IH (sub_prefix_ci q t) i Hp Hc Hc').
Qed.

Lemma prefix_steps_last (ps : list string) (t : string) :
  prefix_steps ps t !! length ps =
  Some (fold_left (fun cleaned prefix => sub_prefix_ci prefix cleaned) ps t).
Proof.
  revert t; induction ps as [|p ps IH]; intros t; [reflexivity|].
  exact (IH (sub_prefix_ci p t)).
Qed.

(** C2 (amended): [cleaned] runs through the title and then one text per
    prefix of the fixed list, in order.  At each prefix, when the prefix
    begins the current text (ignoring case) exactly that many leading
    characters are cut off (the piece cut equals the prefix up to case);
    otherwise the text is kept.  Several prefixes can thus be removed one
    after the other; the last text is then trimmed and singularized. *)
Theorem clean_topic_title_removes_prefix_chain (title : string) :
  exists cs : list string,
    length cs = S (length prefixes) /\
    cs !! 0 = Some title /\
    (forall i p c c',
       prefixes !! i = Some p -> cs !! i = Some c -> cs !! S i = Some c' ->
       (String.prefix (lower p) (lower c) = true ->
          exists r, c = String.append r c' /\ lower r = lower p) /\
       (String.prefix (lower p) (lower c) = false -> c' = c)) /\
    (forall c, cs !! length prefixes = Some c ->
       clean_topic_title title = singularize (strip c)).
Proof.
  exists (prefix_steps prefixes title).
  split; [apply prefix_steps_length|].
  split; [reflexivity|].
  split.
  - intros i p c c' Hp Hc Hc'.
    pose proof (prefix_steps_step prefixes title i p c c' Hp Hc Hc') as ->.
    unfold sub_prefix_ci; split; intros H; rewrite H; [|reflexivity].
    exact (prefix_lower_split p c H).
  - intros c Hc; rewrite prefix_steps_last in Hc; injection Hc as <-.
    reflexivity.
Qed.

(** ** KeywordExtractor *)

(** C3 (counterexample): on the example description the result does not
    contain "vector spaces": nothing removes the leading word "Covers". *)
Lemma extract_keywords_example_misses_vector_spaces :
  ~ ("vector spaces" ∈ extract_keywords_from_description vector_description /\
     "matrices" ∈ extract_keywords_from_description vector_description /\
     "inner products" ∈ extract_keywords_from_description vector_description).
Proof.
  intros [H _].
  unfold extract_keywords_from_description in H.
  rewrite elem_of_list_to_set, keyword_list_vector_description,
    list_elem_of_In in H.
  simpl in H; intuition discriminate.
Qed.

(** C3 (amended): on the example description the result contains
    "Covers vector spaces" (the leading word stays with the first
    fragment, so "vector spaces" alone is not in it) and "matrices"; each
    of its elements is longer than 3 characters and off the stoplist. *)
Theorem extract_keywords_example_set :
  "Covers vector spaces" ∈ extract_keywords_from_description vector_description /\
  ("vector spaces" ∉ extract_keywords_from_description vector_description) /\
  "matrices" ∈ extract_keywords_from_description vector_description /\
  (forall k, k ∈ extract_keywords_from_description vector_description ->
             3 < String.length k /\
             existsb (String.eqb (lower k)) unwanted_keywords = false).
Proof.
  unfold extract_keywords_from_description.
  rewrite !elem_of_list_to_set, keyword_list_vector_description, !list_elem_of_In.
  split; [simpl; auto|].
  split; [simpl; intuition discriminate|].
  split; [simpl; auto|].
  intros k Hk.
  rewrite ?elem_of_list_to_set, ?keyword_list_vector_description,
    ?list_elem_of_In in Hk; simpl in Hk.
  destruct Hk as [<- | [<- | [<- | []]]]; vm_compute; split; auto; lia.
Qed.

(** ** SearchClient variants *)

(** C8 (code bug): "Graph THEORY" ends in " theory" case-insensitively,
    yet its variant list is just ["Graph THEORY"]: the core concept
    "Graph" is never tried, since only " Theory" and " theory" are
    replaced. *)
Theorem search_queries_uppercase_theory :
  endswith (lower "Graph THEORY") " theory" = true /\
  search_queries "Graph THEORY" = ["Graph THEORY"].
Proof. split; vm_compute; reflexivity. Qed.

(** ** SearchClient *)

Lemma scan_results_no_strong_rest (term : string) (rs : list (string * string))
    (i : nat) (found : list article) :
  (forall p, In p rs -> strong_match term p.1 = false) ->
  scan_results term (S i) rs found = (None, found).
Proof.
  revert i; induction rs as [|[title url] rs IH]; intros i Hno; [reflexivity|].
  pose proof (Hno (title, url) (or_introl eq_refl)) as Hs.
  unfold strong_match in Hs; simpl in Hs.
  apply orb_false_iff in Hs as [Hs H3]; apply orb_false_iff in Hs as [H1 H2].
  simpl; rewrite H1, H2, H3; simpl.
  apply IH; intros p Hp; apply Hno; right; exact Hp.
Qed.

Lemma scan_results_no_strong (term : string) (rs : list (string * string))
    (found : list article) :
  (forall p, In p rs -> strong_match term p.1 = false) ->
  scan_results term 0 rs found =
    (None, match rs with
           | [] => found
           | (title, url) :: _ => app found [mk_article title url]
           end).
Proof.
  destruct rs as [|[title url] rs]; intros Hno; [reflexivity|].
  pose proof (Hno (title, url) (or_introl eq_refl)) as Hs.
  unfold strong_match in Hs; simpl in Hs.
  apply orb_false_iff in Hs as [Hs H3]; apply orb_false_iff in Hs as [H1 H2].
  simpl; rewrite H1, H2, H3; simpl.
  apply scan_results_no_strong_rest; intros p Hp; apply Hno; right; exact Hp.
Qed.

Lemma search_loop_no_strong (svc : service) (terms : list string)
    (found : list article) (log : list string) :
  (forall n term rs, In term terms -> svc n term = Some rs ->
     forall p, In p rs -> strong_match term p.1 = false) ->
  search_loop svc terms found log =
    (match found with
     | a :: _ => Some a
     | [] => earliest_top_result svc terms (length log)
     end, app log terms).
Proof.
  revert found log; induction terms as [|t ts IH]; intros found log Hno.
  - destruct found; simpl; rewrite app_nil_r; reflexivity.
  - assert (Hts : forall n term rs, In term ts -> svc n term = Some rs ->
              forall p, In p rs -> strong_match term p.1 = false)
      by (intros n term rs Hin; apply Hno; right; exact Hin).
    assert (Hlog : app log (t :: ts) = app (app log [t]) ts)
      by (rewrite <- app_assoc; reflexivity).
    assert (Hlen : length (app log [t]) = S (length log))
      by (rewrite length_app; simpl; lia).
    simpl; destruct (svc (length log) t) as [rs|] eqn:Hsvc.
    + rewrite (scan_results_no_strong t rs found
                 (Hno (length log) t rs (or_introl eq_refl) Hsvc)).
      rewrite IH by exact Hts; rewrite Hlog, Hlen.
      destruct rs as [|[title url] rs]; destruct found; reflexivity.
    + rewrite IH by exact Hts; rewrite Hlog, Hlen.
      destruct found; reflexivity.
Qed.

(** C4: when no result of any variant is a strong match (no case-
    insensitive equality, no containment either way), the search returns
    the top result of the earliest variant whose request returned
    results, or [None] if there is none; every variant was requested. *)
Theorem search_wikipedia_article_fallback (svc : service) (log : list string)
    (query_term : string) :
  (forall n term rs, In term (search_queries query_term) -> svc n term = Some rs ->
     forall p, In p rs -> strong_match term p.1 = false) ->
  search_wikipedia_article svc log query_term =
    (earliest_top_result svc (search_queries query_term) (length log),
     app log (search_queries query_term)).
Proof.
  intros Hno; unfold search_wikipedia_article.
  rewrite search_loop_no_strong by exact Hno; reflexivity.
Qed.

Lemma search_wikipedia_article_fallback_witness :
  search_wikipedia_article svc_unrelated [] "Graph Theory" =
    (earliest_top_result svc_unrelated (search_queries "Graph Theory") 0,
     search_queries "Graph Theory").
Proof.
  apply (search_wikipedia_article_fallback svc_unrelated [] "Graph Theory").
  intros n term rs Hin Hsvc p Hp.
  vm_compute in Hin.
  destruct Hin as [<- | [<- | []]]; vm_compute in Hsvc; injection Hsvc as <-;
    simpl in Hp; repeat destruct Hp as [<- | Hp]; try contradiction;
    vm_compute; reflexivity.
Defined.

Lemma search_queries_head (query_term : string) :
  exists rest, search_queries query_term = query_term :: rest.
Proof.
  unfold search_queries; cbv zeta.
  repeat case_match; eexists; reflexivity.
Qed.

(** C5: when the top result of the first variant (the term itself)
    equals it case-insensitively, that result is returned after that one
    request: no later variant is searched and the lower-ranked results
    [rest] play no part. *)
Theorem search_wikipedia_article_first_exact (svc : service) (log : list string)
    (query_term title url : string) (rest : list (string * string)) :
  svc (length log) query_term = Some ((title, url) :: rest) ->
  String.eqb (lower query_term) (lower title) = true ->
  search_wikipedia_article svc log query_term =
    (Some (mk_article title url), app log [query_term]).
Proof.
  intros Hsvc Heq; unfold search_wikipedia_article.
  destruct (search_queries_head query_term) as [tl ->].
  simpl; rewrite Hsvc; simpl; rewrite Heq; reflexivity.
Qed.

Lemma search_wikipedia_article_first_exact_witness :
  search_wikipedia_article svc_html [] "html" =
    (Some (mk_article "HTML" "u/HTML"), ["html"]).
Proof.
  apply (search_wikipedia_article_first_exact svc_html [] "html" "HTML" "u/HTML"
           [("HTML5", "u/HTML5")]); vm_compute; reflexivity.
Defined.

(** ** EvidenceLinker *)

Lemma record_match_urls (context : string) (relevance : nat)
    (st : list source * gset string) (info : option article) :
  NoDup (map s_url st.1) ->
  (forall u, In u (map s_url st.1) -> u ∈ st.2) ->
  let st' := record_match context relevance st info in
  NoDup (map s_url st'.1) /\ (forall u, In u (map s_url st'.1) -> u ∈ st'.2).
Proof.
  destruct st as [sources seen_urls]; simpl; intros Hnd Hseen.
  destruct info as [a|]; simpl; [|split; assumption].
  case_bool_decide as Hin; simpl; [split; assumption|].
  rewrite map_app; simpl; split.
  - apply NoDup_app; split; [exact Hnd|]; split.
    + intros u Hu Hu'. apply list_elem_of_In in Hu, Hu'.
      destruct Hu' as [<-|[]]. exact (Hin (Hseen _ Hu)).
    + apply NoDup_singleton.
  - intros u Hu; apply in_app_iff in Hu as [Hu|[<-|[]]].
    + apply elem_of_union_r; exact (Hseen u Hu).
    + apply elem_of_union_l, elem_of_singleton; reflexivity.
Qed.

Lemma sub_topic_loop_urls (svc : service) (sub_topics : list string)
    (st : list source * gset string) (log : list string) :
  NoDup (map s_url st.1) ->
  (forall u, In u (map s_url st.1) -> u ∈ st.2) ->
  let st' := (sub_topic_loop svc sub_topics st log).1 in
  NoDup (map s_url st'.1) /\ (forall u, In u (map s_url st'.1) -> u ∈ st'.2).
Proof.
  revert st log; induction sub_topics as [|k ks IH]; intros st log Hnd Hseen;
    simpl; [split; assumption|].
  destruct (search_wikipedia_article svc log k) as [info log'].
  destruct (record_match_urls k 8 st info Hnd Hseen) as [Hnd' Hseen'].
  apply IH; assumption.
Qed.

(** C1: for a topic dict with a title and a description, whatever the
    search service answers and whatever the iteration order of the
    keyword set, the sources returned have pairwise distinct urls. *)
Theorem generate_sources_for_topic_unique_urls (svc : service)
    (set_order : gset string -> list string) (log : list string)
    (topic_data : gmap string string) (title description : string) :
  topic_data !! "title" = Some title ->
  topic_data !! "description" = Some description ->
  exists sources log',
    generate_sources_for_topic svc set_order log topic_data = (Ok sources, log') /\
    NoDup (map s_url sources).
Proof.
  intros Ht Hd; unfold generate_sources_for_topic; rewrite Ht, Hd.
  destruct (search_wikipedia_article svc log title) as [wiki_info log1].
  assert (Hnil1 : NoDup (map s_url ([] : list source))) by constructor.
  assert (Hnil2 : forall u, In u (map s_url ([] : list source)) ->
                  u ∈ (∅ : gset string)) by (intros u []).
  destruct (record_match_urls title 9 ([], ∅) wiki_info Hnil1 Hnil2) as [Hnd Hseen].
  destruct (String.eqb description "").
  - do 2 eexists; split; [reflexivity | exact Hnd].
  - destruct (sub_topic_loop_urls svc
                (set_order (extract_keywords_from_description description))
                (record_match title 9 ([], ∅) wiki_info) log1 Hnd Hseen)
      as [Hnd' _].
    destruct (sub_topic_loop svc _ _ log1) as [st' log2]; simpl in Hnd'.
    do 2 eexists; split; [reflexivity | exact Hnd'].
Qed.

Lemma generate_sources_for_topic_unique_urls_witness :
  exists sources log',
    generate_sources_for_topic svc_unrelated elements [] graph_topic =
      (Ok sources, log') /\ NoDup (map s_url sources).
Proof.
  apply (generate_sources_for_topic_unique_urls svc_unrelated elements []
           graph_topic "Graph Theory" vector_description);
    vm_compute; reflexivity.
Defined.

(** C10: a topic dict without "title" or without "description" makes the
    call raise [KeyError] on the missing key before any search: the log
    of requests is left as it was. *)
Theorem generate_sources_for_topic_missing_key (svc : service)
    (set_order : gset string -> list string) (log : list string)
    (topic_data : gmap string string) :
  topic_data !! "title" = None \/ topic_data !! "description" = None ->
  exists key, In key ["title"; "description"] /\ topic_data !! key = None /\
    generate_sources_for_topic svc set_order log topic_data =
      (Raise (KeyError key), log).
Proof.
  intros Hmiss; unfold generate_sources_for_topic.
  destruct (topic_data !! "title") as [title|] eqn:Ht.
  - destruct Hmiss as [Hmiss|Hmiss]; [discriminate|].
    rewrite Hmiss; exists "description"; split; [right; left; reflexivity|].
    split; [exact Hmiss | reflexivity].
  - exists "title"; split; [left; reflexivity|]; split; [exact Ht | reflexivity].
Qed.

Lemma generate_sources_for_topic_missing_key_witness :
  exists key, In key ["title"; "description"] /\
    (<["title" := "Graph Theory"]> ∅ : gmap string string) !! key = None /\
    generate_sources_for_topic svc_unrelated elements []
      (<["title" := "Graph Theory"]> ∅) = (Raise (KeyError key), []).
Proof.
  apply (generate_sources_for_topic_missing_key svc_unrelated elements []
           (<["title" := "Graph Theory"]> ∅)).
  right; vm_compute; reflexivity.
Defined.

(** ** GoalDecomposer *)

(** C6: when the collaborator raises (service or network error), or its
    text does not parse after the fences are stripped, the call returns
    the empty list and raises nothing. *)
Theorem generate_learning_roadmap_failure_returns_empty
    (generate_content : string -> outcome string)
    (json_loads : string -> outcome json) (learning_goal : string) :
  (exists e, generate_content (roadmap_prompt learning_goal) = Raise e) \/
  (exists text e, generate_content (roadmap_prompt learning_goal) = Ok text /\
     json_loads (strip_fences (strip text)) = Raise e) ->
  generate_learning_roadmap generate_content json_loads learning_goal = Ok (JArr []).
Proof.
  unfold generate_learning_roadmap, roadmap_try.
  intros [[e He] | (text & e & Ht & Hp)].
  - rewrite He; reflexivity.
  - rewrite Ht, Hp; reflexivity.
Qed.

Lemma generate_learning_roadmap_failure_returns_empty_witness :
  generate_learning_roadmap failing_model lenient_loads "Learn Web Development"
    = Ok (JArr []).
Proof.
  apply (generate_learning_roadmap_failure_returns_empty failing_model
           lenient_loads "Learn Web Development").
  left; eexists; reflexivity.
Defined.

(** ** HTTP endpoint *)

(** C9: without a "goal" field the endpoint raises the 400 error and
    never calls the pipeline; with a non-empty goal string it calls the
    pipeline once and returns its outcome. *)
Theorem generate_roadmap_endpoint_goal_check
    (ingest : pyval -> pyval -> outcome pyval) (data : gmap string pyval) :
  (data !! "goal" = None ->
   generate_roadmap_endpoint ingest data =
     (Raise (HTTPException 400 "Missing learning goal."), [])) /\
  (forall goal, data !! "goal" = Some (PStr goal) -> goal <> "" ->
   let user_id := dict_get data "user_id" (PStr "user123") in
   generate_roadmap_endpoint ingest data =
     (ingest (PStr goal) user_id, [(PStr goal, user_id)])).
Proof.
  unfold generate_roadmap_endpoint; split.
  - intros Hg.
    assert (Hget : dict_get data "goal" PNone = PNone)
      by (unfold dict_get; rewrite Hg; reflexivity).
    rewrite Hget; reflexivity.
  - intros goal Hg Hne.
    assert (Hget : dict_get data "goal" PNone = PStr goal)
      by (unfold dict_get; rewrite Hg; reflexivity).
    rewrite Hget; simpl.
    destruct (String.eqb_spec goal "") as [E|_]; [contradiction|reflexivity].
Qed.

Lemma generate_roadmap_endpoint_goal_check_witness :
  generate_roadmap_endpoint echo_ingest ∅ =
    (Raise (HTTPException 400 "Missing learning goal."), []) /\
  generate_roadmap_endpoint echo_ingest (<["goal" := PStr "Learn Rocq"]> ∅) =
    (Ok (PStr "Learn Rocq"), [(PStr "Learn Rocq", PStr "user123")]).
Proof.
  destruct (generate_roadmap_endpoint_goal_check echo_ingest ∅) as [H1 _].
  destruct (generate_roadmap_endpoint_goal_check echo_ingest
              (<["goal" := PStr "Learn Rocq"]> ∅)) as [_ H2].
  split; [apply H1; reflexivity|].
  apply H2; [vm_compute; reflexivity | discriminate].
Defined.

(** ** GraphValidator *)

Lemma existsb_eqb_In (x : string) (l : list string) :
  existsb (String.eqb x) l = true <-> In x l.
Proof.
  rewrite existsb_exists; split.
  - intros [y [Hy E]]; apply String.eqb_eq in E; subst; exact Hy.
  - intros Hx; exists x; split; [exact Hx | apply String.eqb_refl].
Qed.

Lemma validate_go_position (topics : list topic) (position : nat)
    (earlier_ids : list string) (v : violation) :
  In v (validate_go position earlier_ids topics) ->
  position <= violation_position v.
Proof.
  revert position earlier_ids; induction topics as [|t ts IH];
    intros position earlier_ids Hv; simpl in Hv; [contradiction|].
  apply in_app_iff in Hv as [Hv|Hv]; [apply in_app_iff in Hv as [Hv|Hv]|].
  - destruct (existsb _ _) in Hv; simpl in Hv;
      [destruct Hv as [<-|[]]; simpl; lia | contradiction].
  - apply in_map_iff in Hv as [p [<- _]]; simpl; lia.
  - apply IH in Hv; lia.
Qed.

Lemma validate_go_flags (topics : list topic) (position : nat)
    (earlier_ids : list string) (i : nat) (t : topic) :
  nth_error topics i = Some t ->
  (In (DuplicateId (position + i) (t_id t)) (validate_go position earlier_ids topics)
   <-> In (t_id t) (app earlier_ids (map t_id (firstn i topics)))) /\
  (forall p,
     In (UnresolvedPrerequisite (position + i) p)
        (validate_go position earlier_ids topics)
     <-> In p (t_prerequisites t) /\
         ~ In p (app earlier_ids (map t_id (firstn i topics)))).
Proof.
  revert position earlier_ids i; induction topics as [|t0 ts IH];
    intros position earlier_ids i Hi; [destruct i; discriminate|].
  destruct i as [|j]; simpl in Hi |- *.
  - injection Hi as <-. rewrite app_nil_r, Nat.add_0_r. split.
    + rewrite !in_app_iff; split.
      * intros [[Hv|Hv]|Hv].
        -- destruct (existsb _ _) eqn:E in Hv; simpl in Hv; [|contradiction].
           apply existsb_eqb_In; exact E.
        -- apply in_map_iff in Hv as [q [Hq _]]; discriminate.
        -- apply validate_go_position in Hv; simpl in Hv; lia.
      * intros Hin; apply existsb_eqb_In in Hin.
        left; left; rewrite Hin; left; reflexivity.
    + intros p; rewrite !in_app_iff, in_map_iff; split.
      * intros [[Hv|Hv]|Hv].
        -- destruct (existsb _ _) in Hv; simpl in Hv;
             [destruct Hv as [Hv|[]]; discriminate | contradiction].
        -- destruct Hv as [q [Hq Hin]]; injection Hq as <-.
           apply filter_In in Hin as [Hin Hn]; split; [exact Hin|].
           intros Hp; apply existsb_eqb_In in Hp; rewrite Hp in Hn; discriminate.
        -- apply validate_go_position in Hv; simpl in Hv; lia.
      * intros [Hin Hn]; left; right; exists p; split; [reflexivity|].
        apply filter_In; split; [exact Hin|].
        destruct (existsb (String.eqb p) earlier_ids) eqn:E; [|reflexivity].
        apply existsb_eqb_In in E; contradiction.
  - destruct (IH (S position) (app earlier_ids [t_id t0]) j Hi) as [Hd Hu].
    rewrite <- app_assoc in Hd, Hu; simpl in Hd, Hu.
    replace (S (position + j)) with (position + S j) in Hd, Hu by lia.
    split.
    + rewrite in_app_iff, <- Hd; split; [|intros Hv; right; exact Hv].
      intros [Hv|Hv]; [|exact Hv].
      apply in_app_iff in Hv as [Hv|Hv].
      * destruct (existsb _ _) in Hv; simpl in Hv;
          [destruct Hv as [Hv|[]]; injection Hv; lia | contradiction].
      * apply in_map_iff in Hv as [q [Hq _]]; discriminate.
    + intros p; rewrite in_app_iff, <- Hu; split; [|intros Hv; right; exact Hv].
      intros [Hv|Hv]; [|exact Hv].
      apply in_app_iff in Hv as [Hv|Hv].
      * destruct (existsb _ _) in Hv; simpl in Hv;
          [destruct Hv as [Hv|[]]; discriminate | contradiction].
      * apply in_map_iff in Hv as [q [Hq _]]; injection Hq; lia.
Qed.

(** C7: the GraphValidator flags the topic at position [i] as a
    duplicate exactly when its id is the id of an earlier topic, and
    flags each of its prerequisites exactly when that prerequisite is not
    the id of a topic at a strictly earlier position. *)
Theorem validate_topics_flags (topics : list topic) (i : nat) (t : topic) :
  nth_error topics i = Some t ->
  (In (DuplicateId i (t_id t)) (validate_topics topics)
   <-> In (t_id t) (map t_id (firstn i topics))) /\
  (forall p,
     In (UnresolvedPrerequisite i p) (validate_topics topics)
     <-> In p (t_prerequisites t) /\ ~ In p (map t_id (firstn i topics))).
Proof.
  intros Hi; exact (validate_go_flags topics 0 [] i t Hi).
Qed.

Lemma validate_topics_flags_witness :
  nth_error web_topics 2 = Some (mk_topic "js_intro" "Introduction to JavaScript"
                                   "" intermediate ["html_basics"; "css_fundamentals"]) /\
  ((In (DuplicateId 2 "js_intro") (validate_topics web_topics)
    <-> In "js_intro" (map t_id (firstn 2 web_topics))) /\
   (forall p,
      In (UnresolvedPrerequisite 2 p) (validate_topics web_topics)
      <-> In p ["html_basics"; "css_fundamentals"] /\
          ~ In p (map t_id (firstn 2 web_topics)))).
Proof.
  split; [reflexivity|].
  exact (validate_topics_flags web_topics 2 _ eq_refl).
Defined.

(** The end-to-end scenario of §8 passes with no violation. *)
Example web_topics_valid : validate_topics web_topics = [].
Proof. vm_compute; reflexivity. Qed.

(** * Further properties of the code *)

(** ** String lemmas, continued *)

Lemma str_forall_append (P : ascii -> bool) (a b : string) :
  str_forall P (String.append a b) = str_forall P a && str_forall P b.
Proof.
  induction a as [|c a IH]; [reflexivity|].
  rewrite append_cons; simpl; rewrite IH, andb_assoc; reflexivity.
Qed.

Lemma str_forall_rev_str (P : ascii -> bool) (s : string) :
  str_forall P (rev_str s) = str_forall P s.
Proof.
  induction s as [|c s IH]; [reflexivity|].
  simpl; rewrite str_forall_append, IH; simpl.
  rewrite andb_true_r, andb_comm; reflexivity.
Qed.

Lemma str_forall_lstrip (P : ascii -> bool) (s : string) :
  str_forall P s = true -> str_forall P (lstrip s) = true.
Proof.
  induction s as [|c s IH]; simpl; [auto|].
  intros H; apply andb_true_iff in H as [Hc Hs].
  destruct (is_space c); [auto | simpl; rewrite Hc, Hs; reflexivity].
Qed.

Lemma str_forall_lstrip_closing (P : ascii -> bool) (s : string) :
  str_forall P s = true -> str_forall P (lstrip_closing s) = true.
Proof.
  induction s as [|c s IH]; simpl; [auto|].
  intros H; apply andb_true_iff in H as [Hc Hs].
  destruct (_ || _ || _); [auto | simpl; rewrite Hc, Hs; reflexivity].
Qed.

Lemma str_forall_drop (P : ascii -> bool) (n : nat) (s : string) :
  str_forall P s = true -> str_forall P (drop n s) = true.
Proof.
  revert s; induction n as [|n IH]; intros [|c s] H; simpl in *; auto.
  apply andb_true_iff in H as [_ Hs]; auto.
Qed.

Lemma str_forall_strip (P : ascii -> bool) (s : string) :
  str_forall P s = true -> str_forall P (strip s) = true.
Proof.
  intros H; unfold strip, rstrip.
  rewrite str_forall_rev_str; apply str_forall_lstrip.
  rewrite str_forall_rev_str; apply str_forall_lstrip; exact H.
Qed.

Lemma length_drop (n : nat) (s : string) :
  String.length (drop n s) = String.length s - n.
Proof.
  revert s; induction n as [|n IH]; intros [|c s]; simpl; auto; lia.
Qed.

(** ** KeywordExtractor, in general *)

Lemma match_delim_pos (s : string) (n : nat) :
  match_delim s = Some n -> 1 <= n.
Proof.
  destruct s as [|c t]; simpl; [discriminate|].
  destruct (_ || _); [intros [= <-]; lia|].
  destruct (_ =? 0); [discriminate|].
  destruct (String.prefix _ _); [|discriminate].
  destruct (_ =? 0); [discriminate | intros [= <-]; lia].
Qed.

Definition no_separator (c : ascii) : bool :=
  negb (Ascii.eqb c ";" || Ascii.eqb c ",").

Lemma split_go_no_separator (fuel : nat) (acc s : string) :
  str_forall no_separator acc = true -> String.length s < fuel ->
  forall p, In p (split_go fuel acc s) -> str_forall no_separator p = true.
Proof.
  revert acc s; induction fuel as [|f IH]; intros acc s Hacc Hlen p Hp;
    [lia|].
  destruct s as [|c t].
  - simpl in Hp; destruct Hp as [<-|[]]; exact Hacc.
  - change (In p (match match_delim (String c t) with
                  | Some n => acc :: split_go f EmptyString (drop n (String c t))
                  | None => split_go f (String.append acc (String c EmptyString)) t
                  end)) in Hp.
    destruct (match_delim (String c t)) as [n|] eqn:Hm.
    + destruct Hp as [<-|Hp]; [exact Hacc|].
      apply (IH EmptyString (drop n (String c t))); [reflexivity| |exact Hp].
      apply match_delim_pos in Hm; rewrite length_drop; simpl in *; lia.
    + apply (IH (String.append acc (String c EmptyString)) t);
        [|simpl in Hlen; lia|exact Hp].
      rewrite str_forall_append, Hacc; simpl.
      unfold no_separator.
      destruct (Ascii.eqb c ";" || Ascii.eqb c ",") eqn:Hc; [|reflexivity].
      simpl in Hm; rewrite Hc in Hm; discriminate.
Qed.

Lemma split_delims_no_separator (s p : string) :
  In p (split_delims s) -> str_forall no_separator p = true.
Proof.
  apply split_go_no_separator; [reflexivity | lia].
Qed.

Lemma first_pass_part_some (part k : string) :
  first_pass_part part = Some k ->
  3 < String.length k /\
  k = sub_leading_paren (sub_trailing_closing (strip part)).
Proof.
  unfold first_pass_part.
  destruct (String.eqb (strip part) ""); [discriminate|].
  destruct (_ && _) eqn:H; [|discriminate].
  intros [= <-]; apply andb_true_iff in H as [_ H].
  apply Nat.ltb_lt in H; split; [exact H | reflexivity].
Qed.

Lemma colon_pass_fold (parts keywords : list string) (k : string) :
  In k (fold_left colon_pass parts keywords) ->
  In k keywords \/
  exists mp, In mp parts /\ k = strip mp /\ 3 < String.length k.
Proof.
  revert keywords; induction parts as [|mp parts IH]; intros keywords Hk;
    simpl in Hk; [left; exact Hk|].
  destruct (IH _ Hk) as [Hin | (mp' & Hmp' & -> & Hl)].
  - unfold colon_pass in Hin.
    destruct (_ && _ && _) eqn:H; [|left; exact Hin].
    apply in_app_iff in Hin as [Hin|[<-|[]]]; [left; exact Hin|].
    right; exists mp; split; [left; reflexivity|split; [reflexivity|]].
    apply andb_true_iff in H as [H _]; apply andb_true_iff in H as [_ H].
    apply Nat.ltb_lt; exact H.
  - right; exists mp'; split; [right; exact Hmp' | split; [reflexivity | exact Hl]].
Qed.

Lemma keyword_list_origin (description k : string) :
  In k (keyword_list description) ->
  keep_keyword k = true /\
  ((exists part, In part (split_delims description) /\ 3 < String.length k /\
       k = sub_leading_paren (sub_trailing_closing (strip part))) \/
   (exists mp, In mp (split_delims (strip (after_first_colon description))) /\
       k = strip mp /\ 3 < String.length k)).
Proof.
  unfold keyword_list; rewrite filter_In; intros [Hk Hkeep]; split; [exact Hkeep|].
  assert (Hfirst : In k (omap first_pass_part (split_delims description)) ->
            exists part, In part (split_delims description) /\
              3 < String.length k /\
              k = sub_leading_paren (sub_trailing_closing (strip part))).
  { intros Hin; apply list_elem_of_In, list_elem_of_omap in Hin
      as [part [Hpart Hsome]].
    apply first_pass_part_some in Hsome as [Hl Heq].
    exists part; repeat split; [apply list_elem_of_In; exact Hpart | exact Hl | exact Heq]. }
  destruct (contains ":" description).
  - apply colon_pass_fold in Hk as [Hk|Hk]; [left; auto | right; exact Hk].
  - left; auto.
Qed.

Lemma str_forall_sub_leading_paren (P : ascii -> bool) (s : string) :
  str_forall P s = true -> str_forall P (sub_leading_paren s) = true.
Proof.
  intros H; unfold sub_leading_paren.
  pose proof (str_forall_lstrip P s H) as Hl.
  destruct (lstrip s) as [|c t]; [exact H|].
  destruct (Ascii.eqb c "("); [|exact H].
  simpl in Hl; apply andb_true_iff in Hl as [_ Hl]; exact Hl.
Qed.

Lemma str_forall_sub_trailing_closing (P : ascii -> bool) (s : string) :
  str_forall P s = true -> str_forall P (sub_trailing_closing s) = true.
Proof.
  intros H; unfold sub_trailing_closing.
  rewrite str_forall_rev_str; apply str_forall_lstrip_closing.
  rewrite str_forall_rev_str; exact H.
Qed.

(** Every keyword returned by [extract_keywords_from_description] is
    longer than 3 characters, has at most 5 words and, lower-cased, is
    not on the stoplist. *)
Theorem extract_keywords_filters (description k : string) :
  k ∈ extract_keywords_from_description description ->
  3 < String.length k /\ word_count k <= 5 /\
  existsb (String.eqb (lower k)) unwanted_keywords = false.
Proof.
  unfold extract_keywords_from_description.
  rewrite elem_of_list_to_set, list_elem_of_In.
  intros Hk; destruct (keyword_list_origin description k Hk)
    as [Hkeep [(part & _ & Hl & _) | (mp & _ & _ & Hl)]];
    unfold keep_keyword in Hkeep; apply andb_true_iff in Hkeep as [Hs Hw];
    apply negb_true_iff in Hs; apply Nat.leb_le in Hw; auto.
Qed.

(** No keyword returned by [extract_keywords_from_description] contains a
    comma or a semicolon: both always split. *)
Theorem extract_keywords_no_separator (description k : string) :
  k ∈ extract_keywords_from_description description ->
  str_forall no_separator k = true.
Proof.
  unfold extract_keywords_from_description.
  rewrite elem_of_list_to_set, list_elem_of_In.
  intros Hk; destruct (keyword_list_origin description k Hk)
    as [_ [(part & Hpart & _ & ->) | (mp & Hmp & -> & _)]].
  - apply str_forall_sub_leading_paren, str_forall_sub_trailing_closing,
      str_forall_strip.
    exact (split_delims_no_separator _ _ Hpart).
  - apply str_forall_strip; exact (split_delims_no_separator _ _ Hmp).
Qed.

Lemma extract_keywords_filters_witness :
  "matrices" ∈ extract_keywords_from_description vector_description /\
  3 < String.length "matrices" /\ word_count "matrices" <= 5 /\
  existsb (String.eqb (lower "matrices")) unwanted_keywords = false.
Proof.
  assert (H : "matrices" ∈ extract_keywords_from_description vector_description).
  { unfold extract_keywords_from_description.
    rewrite elem_of_list_to_set, keyword_list_vector_description, list_elem_of_In.
    right; left; reflexivity. }
  split; [exact H | exact (extract_keywords_filters _ _ H)].
Defined.

Lemma extract_keywords_no_separator_witness :
  "matrices" ∈ extract_keywords_from_description vector_description /\
  str_forall no_separator "matrices" = true.
Proof.
  assert (H : "matrices" ∈ extract_keywords_from_description vector_description).
  { unfold extract_keywords_from_description.
    rewrite elem_of_list_to_set, keyword_list_vector_description, list_elem_of_In.
    right; left; reflexivity. }
  split; [exact H | exact (extract_keywords_no_separator _ _ H)].
Defined.

(** ** SearchClient, in general *)

Lemma lower_neq (a b : string) :
  String.eqb (lower a) (lower b) = false -> a <> b.
Proof. intros H ->; rewrite String.eqb_refl in H; discriminate. Qed.

Lemma existsb_eqb_notin (x : string) (l : list string) :
  existsb (String.eqb x) l = false -> ~ In x l.
Proof. intros H Hin; apply existsb_eqb_In in Hin; congruence. Qed.

(** The variant list starts with the query term, has at most three
    entries, no two equal, and every later entry differs from the term
    even case-insensitively. *)
Theorem search_queries_shape (query_term : string) :
  exists rest,
    search_queries query_term = query_term :: rest /\
    length rest <= 2 /\
    NoDup (search_queries query_term) /\
    (forall v, In v rest -> String.eqb (lower v) (lower query_term) = false).
Proof.
  unfold search_queries; cbv zeta.
  set (c := clean_topic_title query_term).
  set (core := replace1 (replace1 query_term " Theory" "") " theory" "").
  set (qs := if negb (String.eqb c "") && negb (String.eqb (lower c) (lower query_term))
                && negb (existsb (String.eqb c) [query_term])
             then app [query_term] [c] else [query_term]).
  assert (Hqs : exists rest, qs = query_term :: rest /\ length rest <= 1 /\
            NoDup qs /\
            (forall v, In v rest -> String.eqb (lower v) (lower query_term) = false)).
  { unfold qs.
    destruct (negb (String.eqb c "") && negb (String.eqb (lower c) (lower query_term))
              && negb (existsb (String.eqb c) [query_term])) eqn:H1.
    - apply andb_true_iff in H1 as [H1 _]; apply andb_true_iff in H1 as [_ H1].
      apply negb_true_iff in H1.
      exists [c]; split; [reflexivity|]; split; [simpl; lia|]; split.
      + apply NoDup_cons_2; [|apply NoDup_singleton].
        rewrite list_elem_of_In; intros [Hc|[]].
        exact (lower_neq c query_term H1 Hc).
      + intros v [<-|[]]; exact H1.
    - exists []; split; [reflexivity|]; split; [simpl; lia|]; split.
      + apply NoDup_singleton.
      + intros v []. }
  destruct Hqs as (rest & Hq & Hlen & Hnd & Hlow).
  destruct (endswith (lower query_term) " theory");
    [|exists rest; rewrite Hq in Hnd |- *;
       split; [reflexivity|split; [lia|split; [exact Hnd|exact Hlow]]]].
  destruct (negb (String.eqb core "") && negb (String.eqb (lower core) (lower query_term))
            && negb (existsb (String.eqb core) qs)) eqn:H2;
    [|exists rest; rewrite Hq in Hnd |- *;
       split; [reflexivity|split; [lia|split; [exact Hnd|exact Hlow]]]].
  apply andb_true_iff in H2 as [H2 H3]; apply andb_true_iff in H2 as [_ H2].
  apply negb_true_iff in H2, H3.
  exists (app rest [core]); rewrite Hq; split; [reflexivity|]; split.
  - rewrite length_app; simpl; lia.
  - split.
    + rewrite <- Hq; apply NoDup_app; split; [exact Hnd|]; split.
      * intros x Hx Hx'; apply list_elem_of_In in Hx, Hx'.
        destruct Hx' as [<-|[]]; exact (existsb_eqb_notin _ _ H3 Hx).
      * apply NoDup_singleton.
    + intros v Hv; apply in_app_iff in Hv as [Hv|[<-|[]]]; [auto | exact H2].
Qed.

Lemma search_loop_requests (svc : service) (t : string) (ts : list string)
    (found : list article) (log : list string) :
  exists k, k <= length ts /\
    (search_loop svc (t :: ts) found log).2 = app log (firstn (S k) (t :: ts)).
Proof.
  revert t found log; induction ts as [|t' ts IH]; intros t found log.
  - exists 0; split; [reflexivity|].
    simpl; destruct (svc (length log) t) as [rs|]; [|reflexivity].
    destruct (scan_results t 0 rs found) as [[a|] found']; reflexivity.
  - assert (Hnext : forall found',
              exists k, k <= length (t' :: ts) /\
                (search_loop svc (t' :: ts) found' (app log [t])).2 =
                  app log (firstn (S k) (t :: t' :: ts))).
    { intros found'; destruct (IH t' found' (app log [t])) as [k [Hk Heq]].
      exists (S k); split; [simpl; lia|].
      rewrite Heq, <- app_assoc; reflexivity. }
    simpl; destruct (svc (length log) t) as [rs|]; [|apply Hnext].
    destruct (scan_results t 0 rs found) as [[a|] found']; [|apply Hnext].
    exists 0; split; [simpl; lia | reflexivity].
Qed.

(** One search issues between one and three requests: the requests of
    the call are the first [k] variants, in order. *)
Theorem search_wikipedia_article_requests (svc : service) (log : list string)
    (query_term : string) :
  exists k, 1 <= k <= 3 /\
    (search_wikipedia_article svc log query_term).2 =
      app log (firstn k (search_queries query_term)).
Proof.
  unfold search_wikipedia_article.
  destruct (search_queries_shape query_term) as (rest & Hq & Hlen & _).
  rewrite Hq.
  destruct (search_loop_requests svc query_term rest [] log) as [k [Hk Heq]].
  exists (S k); split; [lia | exact Heq].
Qed.

Lemma scan_results_some_in (term : string) (i : nat) (rs : list (string * string))
    (found found' : list article) (a : article) :
  scan_results term i rs found = (Some a, found') -> In (a_title a, a_url a) rs.
Proof.
  revert i found; induction rs as [|[title url] rs IH]; intros i found;
    simpl; [discriminate|].
  destruct (String.eqb _ _); [intros [= <- _]; left; reflexivity|].
  destruct (_ || _); [intros [= <- _]; left; reflexivity|].
  intros H; right; exact (IH _ _ H).
Qed.

Lemma scan_results_none_found (term : string) (i : nat) (rs : list (string * string))
    (found found' : list article) :
  scan_results term i rs found = (None, found') ->
  forall a, In a found' -> In a found \/ In (a_title a, a_url a) rs.
Proof.
  revert i found; induction rs as [|[title url] rs IH]; intros i found;
    simpl; [intros [= <-]; auto|].
  destruct (String.eqb _ _); [discriminate|].
  destruct (_ || _); [discriminate|].
  intros H a Ha; destruct (IH _ _ H a Ha) as [Hin|Hin]; [|right; right; exact Hin].
  destruct (i =? 0); [|left; exact Hin].
  apply in_app_iff in Hin as [Hin|[<-|[]]]; [left; exact Hin | right; left; reflexivity].
Qed.

Lemma returned_by_extend (svc : service) (first : nat) (log : list string)
    (extra : list string) (title url : string) :
  returned_by svc first log title url ->
  returned_by svc first (app log extra) title url.
Proof.
  intros (n & term & rs & Hn & Hlog & Hsvc & Hin).
  exists n, term, rs; repeat split; auto.
  rewrite nth_error_app1; [exact Hlog|].
  apply nth_error_Some; congruence.
Qed.

Lemma search_loop_returned_by (svc : service) (first : nat) (terms : list string)
    (found : list article) (log : list string) (a : article) :
  first <= length log ->
  (forall b, In b found -> returned_by svc first log (a_title b) (a_url b)) ->
  (search_loop svc terms found log).1 = Some a ->
  returned_by svc first (search_loop svc terms found log).2 (a_title a) (a_url a).
Proof.
  revert found log; induction terms as [|t ts IH]; intros found log Hfirst Hfound.
  - simpl; destruct found as [|b found]; [discriminate|].
    intros [= <-]; apply Hfound; left; reflexivity.
  - assert (Hreq : forall rs, svc (length log) t = Some rs ->
              forall title url, In (title, url) rs ->
              returned_by svc first (app log [t]) title url).
    { intros rs Hsvc title url Hin; exists (length log), t, rs; repeat split; auto.
      rewrite nth_error_app2, Nat.sub_diag; reflexivity. }
    assert (Hfound' : forall b, In b found ->
              returned_by svc first (app log [t]) (a_title b) (a_url b))
      by (intros b Hb; apply returned_by_extend, Hfound, Hb).
    assert (Hfirst' : first <= length (app log [t]))
      by (rewrite length_app; simpl; lia).
    simpl; destruct (svc (length log) t) as [rs|] eqn:Hsvc;
      [|apply IH; assumption].
    destruct (scan_results t 0 rs found) as [[b|] found'] eqn:Hscan.
    + simpl; intros [= <-].
      exact (Hreq rs eq_refl _ _ (scan_results_some_in _ _ _ _ _ _ Hscan)).
    + apply IH; [exact Hfirst'|].
      intros b Hb; destruct (scan_results_none_found _ _ _ _ _ Hscan b Hb)
        as [Hin|Hin]; [apply Hfound', Hin | exact (Hreq rs eq_refl _ _ Hin)].
Qed.

(** A search never invents a result: what it returns is a (title, url)
    pair of the service's answer to one of the requests the call itself
    issued. *)
Theorem search_wikipedia_article_result_from_service (svc : service)
    (log log' : list string) (query_term : string) (a : article) :
  search_wikipedia_article svc log query_term = (Some a, log') ->
  returned_by svc (length log) log' (a_title a) (a_url a).
Proof.
  intros H; unfold search_wikipedia_article in H.
  pose proof (search_loop_returned_by svc (length log) (search_queries query_term)
                [] log a (le_n _) (fun b Hb => match Hb with end)) as Hr.
  rewrite H in Hr; exact (Hr eq_refl).
Qed.

Lemma search_wikipedia_article_result_from_service_witness :
  returned_by svc_html 0 ["html"] "HTML" "u/HTML".
Proof.
  exact (search_wikipedia_article_result_from_service svc_html [] ["html"] "html"
           (mk_article "HTML" "u/HTML") eq_refl).
Defined.

(** ** EvidenceLinker, in general *)

Lemma record_match_cases (context : string) (relevance : nat)
    (st : list source * gset string) (info : option article) :
  (record_match context relevance st info).1 = st.1 \/
  exists a, info = Some a /\
    (record_match context relevance st info).1 =
      app st.1 [mk_source (a_url a) "Wikipedia Article" (a_title a) relevance context].
Proof.
  destruct st as [sources seen_urls]; destruct info as [a|]; simpl; [|left; reflexivity].
  case_bool_decide; [left; reflexivity | right; exists a; split; reflexivity].
Qed.

Lemma search_wikipedia_article_log (svc : service) (log : list string)
    (query_term : string) :
  exists reqs, (search_wikipedia_article svc log query_term).2 = app log reqs /\
    1 <= length reqs <= 3.
Proof.
  destruct (search_wikipedia_article_requests svc log query_term) as [k [Hk Heq]].
  destruct (search_queries_shape query_term) as (rest & Hq & Hlen & _).
  exists (firstn k (search_queries query_term)); split; [exact Heq|].
  rewrite length_firstn, Hq; simpl; lia.
Qed.

Lemma sub_topic_loop_props (svc : service) (first : nat) (sub_topics : list string)
    (st : list source * gset string) (log : list string) :
  first <= length log ->
  (forall s, In s st.1 -> returned_by svc first log (s_title s) (s_url s)) ->
  let r := sub_topic_loop svc sub_topics st log in
  (exists added, r.1.1 = app st.1 added /\ length added <= length sub_topics /\
     map s_context_for_topic added `sublist_of` sub_topics /\
     forall s, In s added ->
       s_relevance_tenths s = 8 /\ s_type s = "Wikipedia Article" /\
       In (s_context_for_topic s) sub_topics) /\
  (exists reqs, r.2 = app log reqs /\
     length sub_topics <= length reqs <= 3 * length sub_topics) /\
  (forall s, In s r.1.1 -> returned_by svc first r.2 (s_title s) (s_url s)).
Proof.
  revert st log; induction sub_topics as [|k ks IH]; intros st log Hfirst Hprov; simpl.
  - split; [exists []; rewrite app_nil_r; split; [reflexivity|]; split; [simpl; lia|];
             split; [constructor | intros s []]|].
    split; [exists []; rewrite app_nil_r; split; [reflexivity | simpl; lia] | exact Hprov].
  - destruct (search_wikipedia_article_log svc log k) as (reqs1 & Hlog1 & Hl1).
    destruct (search_wikipedia_article svc log k) as [info log1] eqn:Hs; simpl in Hlog1.
    set (st1 := record_match k 8 st info).
    assert (Hfirst1 : first <= length log1) by (rewrite Hlog1, length_app; lia).
    assert (Hprov1 : forall s, In s st1.1 -> returned_by svc first log1 (s_title s) (s_url s)).
    { intros s Hin; destruct (record_match_cases k 8 st info) as [E | (a & -> & E)];
        unfold st1 in Hin; rewrite E in Hin.
      - rewrite Hlog1; apply returned_by_extend, Hprov, Hin.
      - apply in_app_iff in Hin as [Hin|[<-|[]]].
        + rewrite Hlog1; apply returned_by_extend, Hprov, Hin.
        + pose proof (search_wikipedia_article_result_from_service svc log log1 k a Hs) as Hr.
          destruct Hr as (n & term & rs & Hn & Hnth & Hsvc & Hrs).
          exists n, term, rs; repeat split; auto; lia. }
    destruct (IH st1 log1 Hfirst1 Hprov1)
      as ((added & Hadd & Hladd & Hsub & Hsrc) & (reqs & Hreqs & Hlr) & Hp).
    split; [|split; [|exact Hp]].
    + destruct (record_match_cases k 8 st info) as [E | (a & _ & E)];
        fold st1 in E; rewrite E in Hadd.
      * exists added; split; [exact Hadd|]; split; [simpl; lia|].
        split; [apply sublist_cons, Hsub|].
        intros s Hin; destruct (Hsrc s Hin) as (H8 & Ht & Hc).
        split; [exact H8 | split; [exact Ht | right; exact Hc]].
      * exists (mk_source (a_url a) "Wikipedia Article" (a_title a) 8 k :: added).
        rewrite Hadd, <- app_assoc; split; [reflexivity|]; split; [simpl; lia|].
        split; [simpl; apply sublist_skip, Hsub|].
        intros s [<-|Hin]; [split; [reflexivity | split; [reflexivity | left; reflexivity]]|].
        destruct (Hsrc s Hin) as (H8 & Ht & Hc).
        split; [exact H8 | split; [exact Ht | right; exact Hc]].
    + exists (app reqs1 reqs); rewrite Hreqs, Hlog1, <- app_assoc; split; [reflexivity|].
      rewrite length_app; simpl; lia.
Qed.

Lemma generate_sources_for_topic_props (svc : service)
    (set_order : gset string -> list string) (log : list string)
    (topic_data : gmap string string) (title description : string)
    (sources : list source) (log' : list string) :
  topic_data !! "title" = Some title ->
  topic_data !! "description" = Some description ->
  generate_sources_for_topic svc set_order log topic_data = (Ok sources, log') ->
  let m := if String.eqb description "" then 0
           else length (set_order (extract_keywords_from_description description)) in
  (exists primary added,
     sources = app primary added /\ length primary <= 1 /\
     (forall s, In s primary ->
        s_relevance_tenths s = 9 /\ s_type s = "Wikipedia Article" /\
        s_context_for_topic s = title) /\
     length added <= m /\
     map s_context_for_topic added `sublist_of`
       (if String.eqb description "" then []
        else set_order (extract_keywords_from_description description)) /\
     (forall s, In s added ->
        s_relevance_tenths s = 8 /\ s_type s = "Wikipedia Article" /\
        description <> "" /\
        In (s_context_for_topic s)
           (set_order (extract_keywords_from_description description)))) /\
  (exists reqs, log' = app log reqs /\ 1 + m <= length reqs <= 3 * (1 + m)) /\
  (forall s, In s sources -> returned_by svc (length log) log' (s_title s) (s_url s)).
Proof.
  intros Ht Hd Hgen m.
  unfold generate_sources_for_topic in Hgen; rewrite Ht, Hd in Hgen.
  destruct (search_wikipedia_article_log svc log title) as (reqs1 & Hlog1 & Hl1).
  destruct (search_wikipedia_article svc log title) as [info log1] eqn:Hs;
    simpl in Hlog1.
  set (st := record_match title 9 ([], ∅) info) in Hgen.
  assert (Hprim : length st.1 <= 1 /\
            (forall s, In s st.1 ->
               s_relevance_tenths s = 9 /\ s_type s = "Wikipedia Article" /\
               s_context_for_topic s = title) /\
            (forall s, In s st.1 -> returned_by svc (length log) log1 (s_title s) (s_url s))).
  { destruct (record_match_cases title 9 ([], ∅) info) as [E | (a & -> & E)];
      fold st in E; rewrite E; simpl.
    - split; [lia|]; split; intros s [].
    - split; [lia|]; split; intros s [<-|[]].
      + split; [reflexivity | split; reflexivity].
      + pose proof (search_wikipedia_article_result_from_service svc log log1 title a Hs)
          as Hr; exact Hr. }
  destruct Hprim as (Hlp & Hp9 & Hpp).
  unfold m; destruct (String.eqb description "") eqn:He.
  - injection Hgen as <- <-.
    split; [|split].
    + exists st.1, []; rewrite app_nil_r; split; [reflexivity|].
      split; [exact Hlp|]; split; [exact Hp9|]; split; [simpl; lia|].
      split; [constructor | intros s []].
    + exists reqs1; split; [exact Hlog1 | lia].
    + exact Hpp.
  - set (subs := set_order (extract_keywords_from_description description)) in *.
    assert (Hfirst : length log <= length log1) by (rewrite Hlog1, length_app; lia).
    destruct (sub_topic_loop_props svc (length log) subs st log1 Hfirst Hpp)
      as ((added & Hadd & Hla & Hsub & Hsrc) & (reqs & Hreqs & Hlr) & Hp).
    destruct (sub_topic_loop svc subs st log1) as [st' log2].
    injection Hgen as <- <-; simpl in *.
    split; [|split].
    + exists st.1, added; split; [exact Hadd|]; split; [exact Hlp|]; split; [exact Hp9|].
      split; [exact Hla|]; split; [exact Hsub|].
      intros s Hin; destruct (Hsrc s Hin) as (H8 & Hty & Hc).
      split; [exact H8|]; split; [exact Hty|]; split; [|exact Hc].
      intros E; rewrite E in He; discriminate.
    + exists (app reqs1 reqs); rewrite Hreqs, Hlog1, <- app_assoc; split; [reflexivity|].
      rewrite length_app; lia.
    + exact Hp.
Qed.

(** The sources of a topic are all Wikipedia articles.  At most one
    comes first with relevance 0.9 and the topic title as context (the
    title's match); every other one has relevance 0.8 and a keyword of the
    non-empty description as context.  Their contexts follow the order in
    which the keywords are searched, each keyword at most once per time it
    is searched: with the duplicate-free iteration order of a Python set,
    no keyword is the context of two sources. *)
Theorem generate_sources_for_topic_shape (svc : service)
    (set_order : gset string -> list string) (log : list string)
    (topic_data : gmap string string) (title description : string)
    (sources : list source) (log' : list string) :
  topic_data !! "title" = Some title ->
  topic_data !! "description" = Some description ->
  generate_sources_for_topic svc set_order log topic_data = (Ok sources, log') ->
  exists primary added,
    sources = app primary added /\ length primary <= 1 /\
    (forall s, In s primary ->
       s_relevance_tenths s = 9 /\ s_type s = "Wikipedia Article" /\
       s_context_for_topic s = title) /\
    map s_context_for_topic added `sublist_of`
      (if String.eqb description "" then []
       else set_order (extract_keywords_from_description description)) /\
    (NoDup (set_order (extract_keywords_from_description description)) ->
     NoDup (map s_context_for_topic added)) /\
    (forall s, In s added ->
       s_relevance_tenths s = 8 /\ s_type s = "Wikipedia Article" /\
       description <> "" /\
       In (s_context_for_topic s)
          (set_order (extract_keywords_from_description description))).
Proof.
  intros Ht Hd Hgen.
  destruct (proj1 (generate_sources_for_topic_props svc set_order log topic_data
                     title description sources log' Ht Hd Hgen))
    as (primary & added & H1 & H2 & H3 & _ & Hsub & H6).
  exists primary, added.
  split; [exact H1|]; split; [exact H2|]; split; [exact H3|].
  split; [exact Hsub|]; split; [|exact H6].
  intros Hnd; destruct (String.eqb description "").
  - destruct added as [|s added]; [constructor | inversion Hsub].
  - exact (sublist_NoDup _ _ Hnd Hsub).
Qed.

Lemma generate_sources_for_topic_shape_witness :
  match generate_sources_for_topic svc_echo elements [] graph_topic with
  | (Ok sources, log') =>
      exists primary added,
        sources = app primary added /\ length primary <= 1 /\
        (forall s, In s primary ->
           s_relevance_tenths s = 9 /\ s_type s = "Wikipedia Article" /\
           s_context_for_topic s = "Graph Theory") /\
        map s_context_for_topic added `sublist_of`
          (if String.eqb vector_description "" then []
           else elements (extract_keywords_from_description vector_description)) /\
        (NoDup (elements (extract_keywords_from_description vector_description)) ->
         NoDup (map s_context_for_topic added)) /\
        (forall s, In s added ->
           s_relevance_tenths s = 8 /\ s_type s = "Wikipedia Article" /\
           vector_description <> "" /\
           In (s_context_for_topic s)
              (elements (extract_keywords_from_description vector_description)))
  | _ => False
  end.
Proof.
  destruct (generate_sources_for_topic svc_echo elements [] graph_topic)
    as [[sources|e] log'] eqn:E; [|vm_compute in E; discriminate].
  apply (generate_sources_for_topic_shape svc_echo elements [] graph_topic
           "Graph Theory" vector_description sources log');
    [vm_compute; reflexivity | vm_compute; reflexivity | exact E].
Defined.

(** Every source of a topic was returned by the search service for one
    of the requests issued by this call: urls are never made up. *)
Theorem generate_sources_for_topic_from_service (svc : service)
    (set_order : gset string -> list string) (log : list string)
    (topic_data : gmap string string) (title description : string)
    (sources : list source) (log' : list string) :
  topic_data !! "title" = Some title ->
  topic_data !! "description" = Some description ->
  generate_sources_for_topic svc set_order log topic_data = (Ok sources, log') ->
  forall s, In s sources -> returned_by svc (length log) log' (s_title s) (s_url s).
Proof.
  intros Ht Hd Hgen.
  exact (proj2 (proj2 (generate_sources_for_topic_props svc set_order log topic_data
                         title description sources log' Ht Hd Hgen))).
Qed.

Lemma generate_sources_for_topic_from_service_witness :
  match generate_sources_for_topic svc_unrelated elements [] graph_topic with
  | (Ok sources, log') =>
      forall s, In s sources -> returned_by svc_unrelated 0 log' (s_title s) (s_url s)
  | _ => False
  end.
Proof.
  destruct (generate_sources_for_topic svc_unrelated elements [] graph_topic)
    as [[sources|e] log'] eqn:E; [|vm_compute in E; discriminate].
  apply (generate_sources_for_topic_from_service svc_unrelated elements [] graph_topic
           "Graph Theory" vector_description sources log');
    [vm_compute; reflexivity | vm_compute; reflexivity | exact E].
Defined.

(** A topic costs at least one and at most three search requests for the
    title and for each keyword searched (none when the description is
    empty); the requests are appended to the log in order. *)
Theorem generate_sources_for_topic_request_count (svc : service)
    (set_order : gset string -> list string) (log : list string)
    (topic_data : gmap string string) (title description : string)
    (sources : list source) (log' : list string) :
  topic_data !! "title" = Some title ->
  topic_data !! "description" = Some description ->
  generate_sources_for_topic svc set_order log topic_data = (Ok sources, log') ->
  let m := if String.eqb description "" then 0
           else length (set_order (extract_keywords_from_description description)) in
  exists reqs, log' = app log reqs /\ 1 + m <= length reqs <= 3 * (1 + m).
Proof.
  intros Ht Hd Hgen.
  exact (proj1 (proj2 (generate_sources_for_topic_props svc set_order log topic_data
                         title description sources log' Ht Hd Hgen))).
Qed.

Lemma generate_sources_for_topic_request_count_witness :
  match generate_sources_for_topic svc_unrelated elements [] graph_topic with
  | (Ok sources, log') =>
      exists reqs, log' = app [] reqs /\
        1 + length (elements (extract_keywords_from_description vector_description))
          <= length reqs <=
        3 * (1 + length (elements (extract_keywords_from_description vector_description)))
  | _ => False
  end.
Proof.
  destruct (generate_sources_for_topic svc_unrelated elements [] graph_topic)
    as [[sources|e] log'] eqn:E; [|vm_compute in E; discriminate].
  exact (generate_sources_for_topic_request_count svc_unrelated elements [] graph_topic
           "Graph Theory" vector_description sources log'
           ltac:(vm_compute; reflexivity) ltac:(vm_compute; reflexivity) E).
Defined.

(** ** GoalDecomposer, fence stripping *)

Lemma length_append (a b : string) :
  String.length (String.append a b) = String.length a + String.length b.
Proof.
  induction a as [|c a IH]; [reflexivity|].
  rewrite append_cons; simpl; rewrite IH; reflexivity.
Qed.

Lemma prefix_append (a b : string) : String.prefix a (String.append a b) = true.
Proof.
  induction a as [|c a IH]; [destruct b; reflexivity|].
  rewrite append_cons; simpl.
  destruct (ascii_dec c c) as [_|n]; [exact IH | contradiction].
Qed.

Lemma drop_append (a b : string) : drop (String.length a) (String.append a b) = b.
Proof.
  induction a as [|c a IH]; [reflexivity|].
  rewrite append_cons; simpl; exact IH.
Qed.

Lemma prefix_cons (a c : ascii) (o t : string) :
  String.prefix (String a o) (String c t) =
  if ascii_dec a c then String.prefix o t else false.
Proof. reflexivity. Qed.

Lemma replace_go_unfold (f : nat) (old new s : string) (all : bool) :
  replace_go (S f) old new s all =
  if String.prefix old s then
    String.append new
      (if all then replace_go f old new (drop (String.length old) s) all
       else drop (String.length old) s)
  else match s with
       | EmptyString => EmptyString
       | String c t => String c (replace_go f old new t all)
       end.
Proof. reflexivity. Qed.

(** Scanning for a pattern that starts with a backtick passes over a
    backtick-free text unchanged. *)
Lemma replace_go_skip_tick_first (fuel : nat) (o new s r : string) (all : bool) :
  str_forall not_tick s = true -> String.length s <= fuel ->
  replace_go fuel (String "`"%char o) new (String.append s r) all =
  String.append s (replace_go (fuel - String.length s) (String "`"%char o) new r all).
Proof.
  revert fuel; induction s as [|c s IH]; intros fuel Hs Hlen.
  - rewrite Nat.sub_0_r; reflexivity.
  - simpl in Hs, Hlen; apply andb_true_iff in Hs as [Hc Hs].
    destruct fuel as [|f]; [lia|].
    rewrite append_cons, replace_go_unfold.
    assert (Hp : String.prefix (String "`"%char o) (String c (String.append s r)) = false).
    { rewrite prefix_cons; destruct (ascii_dec "`"%char c) as [E|]; [|reflexivity].
      unfold not_tick in Hc; rewrite <- E in Hc; discriminate. }
    rewrite Hp, IH by (auto; lia); rewrite append_cons; reflexivity.
Qed.

(** The same for a pattern whose second character is a backtick, when
    the text after [s] does not start with a backtick. *)
Lemma replace_go_skip_tick_second (fuel : nat) (a : ascii) (o new s r : string)
    (all : bool) :
  str_forall not_tick s = true -> startswith r "`" = false ->
  String.length s <= fuel ->
  replace_go fuel (String a (String "`"%char o)) new (String.append s r) all =
  String.append s
    (replace_go (fuel - String.length s) (String a (String "`"%char o)) new r all).
Proof.
  revert fuel; induction s as [|c s IH]; intros fuel Hs Hr Hlen.
  - rewrite Nat.sub_0_r; reflexivity.
  - simpl in Hs, Hlen; apply andb_true_iff in Hs as [Hc Hs].
    destruct fuel as [|f]; [lia|].
    rewrite append_cons, replace_go_unfold.
    assert (Hp : String.prefix (String a (String "`"%char o))
                   (String c (String.append s r)) = false).
    { rewrite prefix_cons; destruct (ascii_dec a c) as [_|]; [|reflexivity].
      destruct s as [|d s].
      - destruct r as [|d r]; [reflexivity|].
        unfold startswith in Hr.
        change (String.append "" (String d r)) with (String d r); rewrite prefix_cons.
        rewrite prefix_cons in Hr.
        destruct (ascii_dec "`"%char d); [destruct r; discriminate | reflexivity].
      - rewrite append_cons, prefix_cons; simpl in Hs.
        apply andb_true_iff in Hs as [Hd _].
        destruct (ascii_dec "`"%char d) as [E|]; [|reflexivity].
        unfold not_tick in Hd; rewrite <- E in Hd; discriminate. }
    rewrite Hp, IH by (auto; lia); rewrite append_cons; reflexivity.
Qed.

Lemma append_empty_r (s : string) : String.append s "" = s.
Proof.
  induction s as [|c s IH]; [reflexivity|].
  rewrite append_cons, IH; reflexivity.
Qed.

Lemma replace_go_closing_fence_rest (f : nat) :
  1 <= f -> replace_go f (String.append nl "```") "" (String.append nl "```") true = "".
Proof. intros H; destruct f as [|[|f]]; [lia | reflexivity | reflexivity]. Qed.

Lemma replace_go_json_fence_rest (f : nat) :
  replace_go f (String.append "```json" nl) "" (String.append nl "```") true
  = String.append nl "```".
Proof. destruct f as [|[|[|[|[|f]]]]]; reflexivity. Qed.

Lemma replace_go_plain_fence_rest (f : nat) :
  replace_go f (String.append "```" nl) "" (String.append nl "```") true
  = String.append nl "```".
Proof. destruct f as [|[|[|[|[|f]]]]]; reflexivity. Qed.

(** [.replace("\n```", "")] on a backtick-free body followed by the
    closing fence leaves the body. *)
Lemma replace_closing_fence (body : string) :
  str_forall not_tick body = true ->
  replace (String.append body (String.append nl "```")) (String.append nl "```") ""
  = body.
Proof.
  intros Hb; unfold replace.
  assert (E : String.eqb (String.append nl "```") "" = false) by reflexivity.
  rewrite E; cbv beta iota.
  change (String.append nl "```") with (String "010"%char (String "`"%char "``")).
  rewrite replace_go_skip_tick_second
    by (auto; try reflexivity; rewrite length_append; lia).
  change (String "010"%char (String "`"%char "``")) with (String.append nl "```").
  rewrite replace_go_closing_fence_rest
    by (rewrite length_append; simpl; lia).
  apply append_empty_r.
Qed.

(** [.replace("```json\n", "")] on a fenced body removes the opening
    fence only. *)
Lemma replace_opening_json_fence (body : string) :
  str_forall not_tick body = true ->
  replace (fence_json body) (String.append "```json" nl) ""
  = String.append body (String.append nl "```").
Proof.
  intros Hb; unfold replace, fence_json.
  assert (E : String.eqb (String.append "```json" nl) "" = false) by reflexivity.
  rewrite E; cbv beta iota.
  rewrite replace_go_unfold, prefix_append, drop_append.
  change (String.append "" ?x) with x.
  change (String.append "```json" nl)
    with (String "`"%char (String.append "``json" nl)).
  rewrite replace_go_skip_tick_first
    by (auto; rewrite !length_append; lia).
  change (String "`"%char (String.append "``json" nl))
    with (String.append "```json" nl).
  rewrite replace_go_json_fence_rest; reflexivity.
Qed.

Lemma replace_opening_plain_fence (body : string) :
  str_forall not_tick body = true ->
  replace (fence_plain body) (String.append "```" nl) ""
  = String.append body (String.append nl "```").
Proof.
  intros Hb; unfold replace, fence_plain.
  assert (E : String.eqb (String.append "```" nl) "" = false) by reflexivity.
  rewrite E; cbv beta iota.
  rewrite replace_go_unfold, prefix_append, drop_append.
  change (String.append "" ?x) with x.
  change (String.append "```" nl)
    with (String "`"%char (String.append "``" nl)).
  rewrite replace_go_skip_tick_first
    by (auto; rewrite !length_append; lia).
  change (String "`"%char (String.append "``" nl))
    with (String.append "```" nl).
  rewrite replace_go_plain_fence_rest; reflexivity.
Qed.

Lemma strip_fences_json (body : string) :
  str_forall not_tick body = true -> strip_fences (fence_json body) = body.
Proof.
  intros Hb; unfold strip_fences.
  assert (E : startswith (fence_json body) "```json" = true) by reflexivity.
  rewrite E, replace_opening_json_fence, replace_closing_fence by exact Hb.
  reflexivity.
Qed.

Lemma strip_fences_plain (body : string) :
  str_forall not_tick body = true -> strip_fences (fence_plain body) = body.
Proof.
  intros Hb; unfold strip_fences.
  assert (E1 : startswith (fence_plain body) "```json" = false) by reflexivity.
  assert (E2 : startswith (fence_plain body) "```" = true) by reflexivity.
  rewrite E1, E2, replace_opening_plain_fence, replace_closing_fence by exact Hb.
  reflexivity.
Qed.

(** When the collaborator answers with a backtick-free body wrapped in a
    [```json] fence or a bare [```] fence (surrounding whitespace
    allowed), the fences are removed and exactly the body is handed to
    [json.loads]: the roadmap is the parsed body, or [[]] when it does
    not parse. *)
Theorem generate_learning_roadmap_fenced
    (generate_content : string -> outcome string)
    (json_loads : string -> outcome json) (learning_goal text body : string) :
  generate_content (roadmap_prompt learning_goal) = Ok text ->
  strip text = fence_json body \/ strip text = fence_plain body ->
  str_forall not_tick body = true ->
  generate_learning_roadmap generate_content json_loads learning_goal =
  match json_loads body with Ok j => Ok j | Raise _ => Ok (JArr []) end.
Proof.
  intros Hgen Hfence Hb; unfold generate_learning_roadmap, roadmap_try.
  rewrite Hgen.
  destruct Hfence as [E|E]; rewrite E;
    [rewrite strip_fences_json by exact Hb | rewrite strip_fences_plain by exact Hb];
    destruct (json_loads body); reflexivity.
Qed.

Lemma generate_learning_roadmap_fenced_witness :
  generate_learning_roadmap fenced_model array_loads "Learn Web Development"
    = Ok (JArr []).
Proof.
  apply (generate_learning_roadmap_fenced fenced_model array_loads
           "Learn Web Development" (String.append (fence_json "[]") nl) "[]").
  - reflexivity.
  - left; vm_compute; reflexivity.
  - reflexivity.
Defined.

(** ** HTTP endpoint, Python truthiness of the goal *)

(** A goal that is present but falsy ([None], [""], [0], [False], [[]])
    is rejected like a missing one: 400 and no pipeline call. *)
Theorem generate_roadmap_endpoint_falsy_goal
    (ingest : pyval -> pyval -> outcome pyval) (data : gmap string pyval) (g : pyval) :
  data !! "goal" = Some g -> truthy g = false ->
  generate_roadmap_endpoint ingest data =
    (Raise (HTTPException 400 "Missing learning goal."), []).
Proof.
  intros Hg Ht; unfold generate_roadmap_endpoint.
  assert (Hget : dict_get data "goal" PNone = g)
    by (unfold dict_get; rewrite Hg; reflexivity).
  rewrite Hget, Ht; reflexivity.
Qed.

Lemma generate_roadmap_endpoint_falsy_goal_witness :
  generate_roadmap_endpoint echo_ingest (<["goal" := PStr ""]> ∅) =
    (Raise (HTTPException 400 "Missing learning goal."), []).
Proof.
  apply (generate_roadmap_endpoint_falsy_goal echo_ingest
           (<["goal" := PStr ""]> ∅) (PStr ""));
    [vm_compute; reflexivity | reflexivity].
Defined.

(** Any truthy goal, whatever its type (string, number, list, dict...),
    is passed to the pipeline unchanged; the pipeline is called once and
    its outcome is returned.  The user id passed along is the "user_id"
    field when there is one, and "user123" otherwise. *)
Theorem generate_roadmap_endpoint_default_user
    (ingest : pyval -> pyval -> outcome pyval) (data : gmap string pyval) (g : pyval) :
  data !! "goal" = Some g -> truthy g = true ->
  exists user_id,
    generate_roadmap_endpoint ingest data = (ingest g user_id, [(g, user_id)]) /\
    (forall u, data !! "user_id" = Some u -> user_id = u) /\
    (data !! "user_id" = None -> user_id = PStr "user123").
Proof.
  intros Hg Ht; unfold generate_roadmap_endpoint.
  assert (Hget : dict_get data "goal" PNone = g)
    by (unfold dict_get; rewrite Hg; reflexivity).
  exists (dict_get data "user_id" (PStr "user123")).
  rewrite Hget, Ht; split; [reflexivity|].
  unfold dict_get; split; [intros u Hu; rewrite Hu; reflexivity|].
  intros Hu; rewrite Hu; reflexivity.
Qed.

Lemma generate_roadmap_endpoint_default_user_witness :
  (exists user_id,
     generate_roadmap_endpoint echo_ingest (<["goal" := PInt 42]> ∅) =
       (echo_ingest (PInt 42) user_id, [(PInt 42, user_id)]) /\
     (forall u, (<["goal" := PInt 42]> ∅ : gmap string pyval) !! "user_id" = Some u ->
        user_id = u) /\
     ((<["goal" := PInt 42]> ∅ : gmap string pyval) !! "user_id" = None ->
        user_id = PStr "user123")) /\
  (exists user_id,
     generate_roadmap_endpoint echo_ingest
       (<["user_id" := PStr "u7"]> (<["goal" := PDict [("topic", PStr "HTML")]]> ∅)) =
       (echo_ingest (PDict [("topic", PStr "HTML")]) user_id,
        [(PDict [("topic", PStr "HTML")], user_id)]) /\
     (forall u, (<["user_id" := PStr "u7"]>
                  (<["goal" := PDict [("topic", PStr "HTML")]]> ∅) : gmap string pyval)
                  !! "user_id" = Some u -> user_id = u) /\
     ((<["user_id" := PStr "u7"]>
        (<["goal" := PDict [("topic", PStr "HTML")]]> ∅) : gmap string pyval)
        !! "user_id" = None -> user_id = PStr "user123")).
Proof.
  split.
  - apply (generate_roadmap_endpoint_default_user echo_ingest
             (<["goal" := PInt 42]> ∅) (PInt 42));
      [vm_compute; reflexivity | reflexivity].
  - apply (generate_roadmap_endpoint_default_user echo_ingest
             (<["user_id" := PStr "u7"]> (<["goal" := PDict [("topic", PStr "HTML")]]> ∅))
             (PDict [("topic", PStr "HTML")]));
      [vm_compute; reflexivity | reflexivity].
Defined.

(** ** clean_topic_title, where its output comes from *)

Lemma lstrip_split (s : string) : exists w, s = String.append w (lstrip s).
Proof.
  induction s as [|c t IH]; [exists EmptyString; reflexivity|].
  simpl; destruct (is_space c).
  - destruct IH as [w Hw]; exists (String c w); rewrite append_cons, <- Hw; reflexivity.
  - exists EmptyString; reflexivity.
Qed.

Lemma rev_str_append (a b : string) :
  rev_str (String.append a b) = String.append (rev_str b) (rev_str a).
Proof.
  induction a as [|c a IH]; simpl; [rewrite append_empty_r; reflexivity|].
  rewrite IH, append_assoc_str; reflexivity.
Qed.

Lemma rev_str_involutive (s : string) : rev_str (rev_str s) = s.
Proof.
  induction s as [|c t IH]; [reflexivity|].
  simpl; rewrite rev_str_append, IH; reflexivity.
Qed.

Lemma rstrip_split (s : string) : exists w, s = String.append (rstrip s) w.
Proof.
  destruct (lstrip_split (rev_str s)) as [w Hw].
  exists (rev_str w); unfold rstrip.
  rewrite <- rev_str_append, <- Hw, rev_str_involutive; reflexivity.
Qed.

Lemma substring_drop_split (n : nat) (s : string) :
  s = String.append (String.substring 0 n s) (drop n s).
Proof.
  revert n; induction s as [|c t IH]; intros n; destruct n as [|n]; try reflexivity.
  simpl; rewrite append_cons, <- IH; reflexivity.
Qed.

Lemma singularize_split (s : string) : exists w, s = String.append (singularize s) w.
Proof.
  unfold singularize.
  destruct (_ && _ && _); [destruct (negb _)|].
  - exists (drop (String.length s - 1) s); apply substring_drop_split.
  - exists EmptyString; rewrite append_empty_r; reflexivity.
  - exists EmptyString; rewrite append_empty_r; reflexivity.
Qed.

(** The cleaned title is a contiguous piece of the title: cleaning only
    cuts text off its two ends, it never inserts, rewrites or re-cases a
    character. *)
Theorem clean_topic_title_substring (title : string) :
  exists pre post,
    title = String.append pre (String.append (clean_topic_title title) post).
Proof.
  destruct (fold_sub_prefix_sublist prefixes title) as (_ & removed & _ & _ & Hrem).
  fold (remove_prefixes title) in Hrem.
  destruct (lstrip_split (remove_prefixes title)) as [w1 H1].
  destruct (rstrip_split (lstrip (remove_prefixes title))) as [w2 H2].
  destruct (singularize_split (strip (remove_prefixes title))) as [w3 H3].
  exists (String.append removed w1), (String.append w3 w2).
  unfold clean_topic_title.
  rewrite Hrem at 1; rewrite H1 at 1; rewrite H2 at 1.
  fold (strip (remove_prefixes title)); rewrite H3 at 1.
  rewrite !append_assoc_str; reflexivity.
Qed.
